(** * light_chat/models/ngram_module.py: the vanilla n-gram module

    A shallow embedding of [NgramModuleVanilla], [train_model],
    [evaluate_model] and the script's main block.

    The module is written against two libraries, torch and torchmetrics.
    Their numeric kernels (float arithmetic, tanh, the sampler behind
    [torch.randn], the value of the cross-entropy, reverse-mode
    differentiation) are an interface here, class [Torch]; everything
    the module itself does with them (which tensors are indexed,
    reshaped, multiplied, updated, in which order, on which objects) is
    written out.  Tensors are a shape and a row-major storage, as in
    torch; tensor operations are given at the ranks the module uses
    them (a matrix times a matrix, a matrix plus a vector as long as its
    rows), and raise [RuntimeError] elsewhere. *)

From Stdlib Require Import ZArith Lia Bool Reals Lra ClassicalEpsilon.
From stdpp Require Import base list.

Set Default Proof Using "Type".

(** ** Python results *)

Inductive exn : Set := IndexError | RuntimeError | ValueError | TypeError.

Inductive result (A : Type) : Type :=
| Ok (a : A)
| Raise (e : exn).
Arguments Ok {A} a.
Arguments Raise {A} e.

Definition result_bind {A B} (r : result A) (k : A -> result B) : result B :=
  match r with
  | Ok a => k a
  | Raise e => Raise e
  end.

Fixpoint result_mapM {A B} (f : A -> result B) (l : list A) : result (list B) :=
  match l with
  | [] => Ok []
  | a :: l' =>
      result_bind (f a) (fun b =>
      result_bind (result_mapM f l') (fun bs => Ok (b :: bs)))
  end.

(** ** Tensors: a shape and a row-major storage *)

Record tensor (A : Type) : Type := Tensor {
  shape : list nat;
  storage : list A
}.
Arguments Tensor {A} shape storage.
Arguments shape {A} t.
Arguments storage {A} t.

Definition numel (s : list nat) : nat := fold_right Nat.mul 1 s.

(** The [n] consecutive rows of width [m] of a row-major storage. *)
Fixpoint rows_of {A} (n m : nat) (l : list A) : list (list A) :=
  match n with
  | 0 => []
  | S n' => take m l :: rows_of n' m (drop m l)
  end.

(** [t[idx]] for an integer tensor [idx]: every index selects one slice of
    [t] along its first dimension; a negative index counts from the end,
    an index outside [-n, n) is an IndexError. *)
Definition select_row {A} (n w : nat) (st : list A) (i : Z) : result (list A) :=
  if ((- Z.of_nat n <=? i) && (i <? Z.of_nat n))%Z then
    let k := Z.to_nat (if (i <? 0)%Z then i + Z.of_nat n else i)%Z in
    Ok (take w (drop (k * w) st))
  else Raise IndexError.

Definition index {A} (t : tensor A) (idx : tensor Z) : result (tensor A) :=
  match shape t with
  | [] => Raise IndexError
  | n :: rest =>
      result_bind (result_mapM (select_row n (numel rest) (storage t)) (storage idx))
        (fun slices => Ok (Tensor (shape idx ++ rest) (concat slices)))
  end.

(** [t.view(-1, k)]: the storage is kept, the first dimension is inferred.
    With no element the inferred dimension is ambiguous, and a number of
    elements that [k] does not divide fits no shape: both are errors. *)
Definition view_rows {A} (k : nat) (t : tensor A) : result (tensor A) :=
  let n := numel (shape t) in
  if (n =? 0) || (k =? 0) then Raise RuntimeError
  else if n mod k =? 0 then Ok (Tensor [n / k; k] (storage t))
  else Raise RuntimeError.

(** ** The numeric interface of torch

    [scalar] stands for a float32 value; no law of arithmetic is assumed
    of it.  [normal] draws one standard-normal sample and advances the
    generator; [cross_entropy] is [nn.CrossEntropyLoss()] and [autograd]
    the reverse-mode differentiation behind [Tensor.backward]: given the
    function that maps the leaf tensors to the loss, and the leaves'
    values, it returns one gradient tensor per leaf. *)

Class Torch : Type := {
  scalar : Type;
  s_zero : scalar;                         (* 0.0 *)
  s_one : scalar;                          (* 1.0 *)
  s_lr : scalar;                           (* 0.1 *)
  s_neg : scalar -> scalar;
  s_add : scalar -> scalar -> scalar;
  s_sub : scalar -> scalar -> scalar;
  s_mul : scalar -> scalar -> scalar;
  s_div : scalar -> scalar -> scalar;
  s_tanh : scalar -> scalar;
  generator : Type;
  manual_seed : Z -> generator;
  normal : generator -> scalar * generator;
  cross_entropy : tensor scalar -> tensor Z -> result scalar;
  autograd : (list (tensor scalar) -> result scalar) ->
             list (tensor scalar) -> list (tensor scalar)
}.

Section TensorOps.
Context `{Torch}.

(** [torch.randn(shape, generator=g)]: [numel shape] samples, in storage
    order; the generator is left advanced. *)
Fixpoint sample (n : nat) (g : generator) : list scalar * generator :=
  match n with
  | 0 => ([], g)
  | S n' =>
      let (x, g1) := normal g in
      let (xs, g2) := sample n' g1 in
      (x :: xs, g2)
  end.

Definition randn (sh : list nat) (g : generator) : tensor scalar * generator :=
  let (xs, g') := sample (numel sh) g in (Tensor sh xs, g').

(** Inner product, accumulated from the left. *)
Definition dot (u v : list scalar) : scalar :=
  fold_left (fun acc ab => s_add acc (s_mul (fst ab) (snd ab))) (zip u v) s_zero.

Definition column (j : nat) (W : list (list scalar)) : list scalar :=
  map (fun r => nth j r s_zero) W.

(** Row vector times matrix; [W] has [m] columns. *)
Definition vecmat (m : nat) (u : list scalar) (W : list (list scalar)) : list scalar :=
  map (fun j => dot u (column j W)) (seq 0 m).

(** [a @ b] for two matrices. *)
Definition matmul (a b : tensor scalar) : result (tensor scalar) :=
  match shape a, shape b with
  | [n; k], [k'; m] =>
      if k =? k' then
        let W := rows_of k m (storage b) in
        Ok (Tensor [n; m] (concat (map (fun u => vecmat m u W) (rows_of n k (storage a)))))
      else Raise RuntimeError
  | _, _ => Raise RuntimeError
  end.

(** [a + bias] for a matrix and a vector as long as its rows: the vector
    is added to every row. *)
Definition add_bias (a bias : tensor scalar) : result (tensor scalar) :=
  match shape a, shape bias with
  | [n; m], [m'] =>
      if m =? m' then
        Ok (Tensor [n; m]
              (concat (map (fun u => zip_with s_add u (storage bias))
                           (rows_of n m (storage a)))))
      else Raise RuntimeError
  | _, _ => Raise RuntimeError
  end.

Definition tanh (a : tensor scalar) : tensor scalar :=
  Tensor (shape a) (map s_tanh (storage a)).

(** [c * t] for a Python float [c]. *)
Definition scale (c : scalar) (t : tensor scalar) : tensor scalar :=
  Tensor (shape t) (map (s_mul c) (storage t)).

(** [a += b], in place, for tensors of one shape (a gradient has the
    shape of its parameter). *)
Definition iadd (a b : tensor scalar) : result (tensor scalar) :=
  if decide (shape a = shape b) then
    Ok (Tensor (shape a) (zip_with s_add (storage a) (storage b)))
  else Raise RuntimeError.

(** [a - b], elementwise, for tensors of one shape: the update of the
    gradient-descent step as the specification words it. *)
Definition tsub (a b : tensor scalar) : tensor scalar :=
  Tensor (shape a) (zip_with s_sub (storage a) (storage b)).
End TensorOps.

(** ** torchmetrics.MeanMetric *)

Module MeanMetric.
Section MeanMetric.
Context `{Torch}.

(** Modelled from the spec: [MeanMetric] is torchmetrics code, which this
    repository only calls.  It is the "accumulator tracking the average
    of a scalar quantity across repeated updates, with an explicit reset
    operation": the sum of the values seen and their number, both 0.0
    when nothing has been accumulated. *)
Record t : Type := Build {
  mean_value : scalar;
  weight : scalar
}.

(** Modelled from the spec: the "undefined/zero state", what [MeanMetric()]
    builds and what [reset] goes back to. *)
Definition init : t := Build s_zero s_zero.

(** Modelled from the spec: [update(value)] accumulates one more scalar. *)
Definition update (value : scalar) (m : t) : t :=
  Build (s_add (mean_value m) value) (s_add (weight m) s_one).

(** Modelled from the spec: [compute()] is the running mean; with nothing
    accumulated it is the quotient of 0.0 by 0.0. *)
Definition compute (m : t) : scalar := s_div (mean_value m) (weight m).

(** Modelled from the spec: [reset()], the explicit reset operation. *)
Definition reset (m : t) : t := init.

(** The arithmetic mean of a sequence of values, in the arithmetic of
    [scalar]: the values summed in order, divided by their number. *)
Definition total (vs : list scalar) : scalar := fold_left s_add vs s_zero.

Definition count (n : nat) : scalar := Nat.iter n (fun c => s_add c s_one) s_zero.

Definition mean (vs : list scalar) : scalar := s_div (total vs) (count (length vs)).
End MeanMetric.
End MeanMetric.

(** ** The module object *)

Section Module.
Context `{Torch}.

(** [nn.Parameter]: a learnable tensor, and the gradient [backward]
    leaves on it ([None] until then). *)
Record nn_Parameter : Type := Build_nn_Parameter {
  data : tensor scalar;
  grad : option (tensor scalar)
}.

(** A batch is the dict the data loader yields: the contexts under
    ["ngram"], the next characters under ["label"]. *)
Record batch : Type := Build_batch {
  ngram : tensor Z;
  label : tensor Z
}.

(** The attributes [enc] ... [second_bias] and the entries of the list
    [parameters] name the same five [nn.Parameter] objects: they are
    references into [store], which holds the objects themselves. *)
Record NgramModuleVanilla : Type := Build_NgramModuleVanilla {
  store : list nn_Parameter;
  train_loss : MeanMetric.t;
  val_loss : MeanMetric.t;
  test_loss : MeanMetric.t;
  enc : nat;
  first_W : nat;
  first_bias : nat;
  second_W : nat;
  second_bias : nat;
  parameters : list nat
}.

Definition set_store (st : list nn_Parameter) (m : NgramModuleVanilla) :=
  Build_NgramModuleVanilla st (train_loss m) (val_loss m) (test_loss m)
    (enc m) (first_W m) (first_bias m) (second_W m) (second_bias m) (parameters m).

Definition set_train_loss (x : MeanMetric.t) (m : NgramModuleVanilla) :=
  Build_NgramModuleVanilla (store m) x (val_loss m) (test_loss m)
    (enc m) (first_W m) (first_bias m) (second_W m) (second_bias m) (parameters m).

Definition set_val_loss (x : MeanMetric.t) (m : NgramModuleVanilla) :=
  Build_NgramModuleVanilla (store m) (train_loss m) x (test_loss m)
    (enc m) (first_W m) (first_bias m) (second_W m) (second_bias m) (parameters m).

Definition set_test_loss (x : MeanMetric.t) (m : NgramModuleVanilla) :=
  Build_NgramModuleVanilla (store m) (train_loss m) (val_loss m) x
    (enc m) (first_W m) (first_bias m) (second_W m) (second_bias m) (parameters m).

(** The 0-dimensional tensor [model_step] returns: its value, and the
    batch it was computed from when gradient recording was on (its
    [grad_fn]). *)
Record loss_tensor : Type := Build_loss {
  item : scalar;
  grad_fn : option batch
}.

(** What the script prints, one event per [print]. *)
Inductive event : Type :=
| StepLine (epoch epochs batch_idx n_batches : nat) (loss : scalar)
| TrainingLossLine (epoch : nat) (mean : scalar)
| ValidationLossLine (epoch : nat) (mean : scalar)
| TestLossLine (mean : scalar).

(** The state the script runs in: the one model object, torch's
    gradient mode, and the console. *)
Record world : Type := Build_world {
  self : NgramModuleVanilla;
  grad_enabled : bool;
  stdout : list event
}.

Definition set_self (m : NgramModuleVanilla) (w : world) : world :=
  Build_world m (grad_enabled w) (stdout w).

Definition set_grad_enabled (b : bool) (w : world) : world :=
  Build_world (self w) b (stdout w).

(** A statement: it ends in a value or an exception, and leaves a world
    either way. *)
Definition M (A : Type) : Type := world -> result A * world.

Definition ret {A} (a : A) : M A := fun w => (Ok a, w).

Definition bind {A B} (c : M A) (k : A -> M B) : M B :=
  fun w =>
    match c w with
    | (Ok a, w') => k a w'
    | (Raise e, w') => (Raise e, w')
    end.

Definition lift {A} (r : result A) : M A := fun w => (r, w).

Definition raise {A} (e : exn) : M A := lift (Raise e).

Definition get_self : M NgramModuleVanilla := fun w => (Ok (self w), w).

Definition modify_self (f : NgramModuleVanilla -> NgramModuleVanilla) : M unit :=
  fun w => (Ok tt, set_self (f (self w)) w).

Definition print (e : event) : M unit :=
  fun w => (Ok tt, Build_world (self w) (grad_enabled w) (stdout w ++ [e])).

(** [for x in l: body], left at the first exception. *)
Fixpoint for_each {X} (l : list X) (body : X -> M unit) : M unit :=
  match l with
  | [] => ret tt
  | x :: l' => bind (body x) (fun _ => for_each l' body)
  end.

(** [with torch.no_grad(): body]: the previous mode is put back on the
    way out, exception or not. *)
Definition with_no_grad {A} (body : M A) : M A :=
  fun w =>
    let (r, w') := body (set_grad_enabled false w) in
    (r, set_grad_enabled (grad_enabled w) w').
End Module.

Declare Scope py_scope.
Delimit Scope py_scope with py.
Notation "x <- c ;; k" := (bind c (fun x => k))
  (at level 100, c at next level, right associativity) : py_scope.
Notation "c ;;; k" := (bind c (fun _ => k))
  (at level 100, right associativity) : py_scope.
Notation "x <-- r ;; k" := (result_bind r (fun x => k))
  (at level 100, r at next level, right associativity) : py_scope.

Local Open Scope py_scope.

(** ** NgramModuleVanilla *)

Section NgramModule.
Context `{Torch}.

(** A new object joins the store; its position is its identity. *)
Definition alloc (t : tensor scalar) (st : list nn_Parameter) : nat * list nn_Parameter :=
  (length st, st ++ [Build_nn_Parameter t None]).

(** [__init__].  [default_generator] is the state of torch's global
    generator when the constructor runs; every draw names the local
    generator [g] instead. *)
Definition NgramModuleVanilla_init (default_generator : generator) : NgramModuleVanilla :=
  let g := manual_seed 42 in
  let (t_enc, g) := randn [27; 2] g in
  let (r_enc, st) := alloc t_enc [] in
  let (t_first_W, g) := randn [6; 100] g in
  let (r_first_W, st) := alloc t_first_W st in
  let (t_first_bias, g) := randn [100] g in
  let (r_first_bias, st) := alloc t_first_bias st in
  let (t_second_W, g) := randn [100; 27] g in
  let (r_second_W, st) := alloc t_second_W st in
  let (t_second_bias, g) := randn [27] g in
  let (r_second_bias, st) := alloc t_second_bias st in
  {| store := st;
     train_loss := MeanMetric.init;
     val_loss := MeanMetric.init;
     test_loss := MeanMetric.init;
     enc := r_enc;
     first_W := r_first_W;
     first_bias := r_first_bias;
     second_W := r_second_W;
     second_bias := r_second_bias;
     parameters := [r_enc; r_first_W; r_first_bias; r_second_W; r_second_bias] |}.

(** Reading an attribute that holds a parameter.  A reference outside
    the store names no object; no method creates one. *)
Definition deref (m : NgramModuleVanilla) (r : nat) : result nn_Parameter :=
  match store m !! r with
  | Some p => Ok p
  | None => Raise RuntimeError
  end.

(** [self.criterion = nn.CrossEntropyLoss()]: set by the constructor,
    never reassigned. *)
Definition criterion (logits : tensor scalar) (target : tensor Z) : result scalar :=
  cross_entropy logits target.

(** The body of [forward], on the values of the five parameters. *)
Definition forward_on (e w1 b1 w2 b2 : tensor scalar) (x : batch)
  : result (tensor scalar) :=
  ngram_enc <-- index e (ngram x) ;;
  flat <-- view_rows 6 ngram_enc ;;
  a1 <-- matmul flat w1 ;;
  z1 <-- add_bias a1 b1 ;;
  let hidden := tanh z1 in
  a2 <-- matmul hidden w2 ;;
  add_bias a2 b2.

Definition forward (x : batch) : M (tensor scalar) :=
  m <- get_self ;;
  e <- lift (deref m (enc m)) ;;
  w1 <- lift (deref m (first_W m)) ;;
  b1 <- lift (deref m (first_bias m)) ;;
  w2 <- lift (deref m (second_W m)) ;;
  b2 <- lift (deref m (second_bias m)) ;;
  lift (forward_on (data e) (data w1) (data b1) (data w2) (data b2) x).

Definition model_step (x : batch) : M loss_tensor :=
  logits <- forward x ;;
  loss <- lift (criterion logits (label x)) ;;
  fun w => (Ok (Build_loss loss (if grad_enabled w then Some x else None)), w).

(** The graph behind a loss: the loss as a function of the five leaves
    [enc], [first_W], [first_bias], [second_W], [second_bias]. *)
Definition leaves (m : NgramModuleVanilla) : list nat :=
  [enc m; first_W m; first_bias m; second_W m; second_bias m].

Definition loss_of (x : batch) (vals : list (tensor scalar)) : result scalar :=
  match vals with
  | [e; w1; b1; w2; b2] =>
      logits <-- forward_on e w1 b1 w2 b2 x ;;
      criterion logits (label x)
  | _ => Raise RuntimeError
  end.

(** [backward] adds a leaf's gradient to its [grad], or stores it when
    there is none yet. *)
Definition accumulate (rg : nat * tensor scalar) : M unit :=
  m <- get_self ;;
  p <- lift (deref m rg.1) ;;
  new <- lift (match grad p with
               | None => Ok rg.2
               | Some g0 => iadd g0 rg.2
               end) ;;
  modify_self (set_store (<[rg.1 := Build_nn_Parameter (data p) (Some new)]> (store m))).

(** [loss.backward()]; a loss computed with recording off has no graph. *)
Definition backward (loss : loss_tensor) : M unit :=
  match grad_fn loss with
  | None => raise RuntimeError
  | Some x =>
      m <- get_self ;;
      ps <- lift (result_mapM (deref m) (leaves m)) ;;
      for_each (zip (leaves m) (autograd (loss_of x) (map data ps))) accumulate
  end.

(** The body of [for parameters in self.parameters]:
    [parameters.data += -0.1 * parameters.grad] and
    [parameters.grad = None], on the object the reference names. *)
Definition sgd_update (r : nat) : M unit :=
  m <- get_self ;;
  p <- lift (deref m r) ;;
  match grad p with
  | None => raise TypeError
  | Some g =>
      d <- lift (iadd (data p) (scale (s_neg s_lr) g)) ;;
      modify_self (set_store (<[r := Build_nn_Parameter d None]> (store m)))
  end.

Definition training_step (x : batch) : M loss_tensor :=
  loss <- model_step x ;;
  backward loss ;;;
  m <- get_self ;;
  for_each (parameters m) sgd_update ;;;
  modify_self (fun m => set_train_loss (MeanMetric.update (item loss) (train_loss m)) m) ;;;
  ret loss.

Definition validation_step (x : batch) : M unit :=
  loss <- model_step x ;;
  modify_self (fun m => set_val_loss (MeanMetric.update (item loss) (val_loss m)) m).

Definition test_step (x : batch) : M unit :=
  loss <- model_step x ;;
  modify_self (fun m => set_test_loss (MeanMetric.update (item loss) (test_loss m)) m).

(** ** The loops *)

(** Modelled from the spec: how the data module sets its loaders up is
    not part of the sources at hand.  With "full-batch gradient descent"
    a [DataLoader] is a fixed sequence of batches, the same at every
    pass. *)
Definition DataLoader : Type := list batch.

(** What the script hands to a loop: a loader, or a bound method that
    would return one if called. *)
Inductive pyobj : Type :=
| PyDataLoader (l : DataLoader)
| PyMethod (call : unit -> DataLoader).

(** [iter(o)] and [len(o)]: a method is neither iterable nor sized. *)
Definition iter (o : pyobj) : result (list batch) :=
  match o with
  | PyDataLoader l => Ok l
  | PyMethod _ => Raise TypeError
  end.

Definition len (o : pyobj) : result nat :=
  match o with
  | PyDataLoader l => Ok (length l)
  | PyMethod _ => Raise TypeError
  end.

Definition enumerate {X} (l : list X) : list (nat * X) := zip (seq 0 (length l)) l.

(** One pass of [for epoch in range(epochs)]. *)
Definition epoch_body (train_loader val_loader : pyobj) (epochs epoch : nat) : M unit :=
  batches <- lift (iter train_loader) ;;
  for_each (enumerate batches) (fun ib =>
    loss <- training_step ib.2 ;;
    n <- lift (len train_loader) ;;
    print (StepLine epoch epochs ib.1 n (item loss))) ;;;
  vbatches <- lift (iter val_loader) ;;
  for_each vbatches validation_step ;;;
  m <- get_self ;;
  print (TrainingLossLine epoch (MeanMetric.compute (train_loss m))) ;;;
  m <- get_self ;;
  print (ValidationLossLine epoch (MeanMetric.compute (val_loss m))) ;;;
  modify_self (fun m => set_train_loss (MeanMetric.reset (train_loss m)) m) ;;;
  modify_self (fun m => set_val_loss (MeanMetric.reset (val_loss m)) m).

Definition train_model (train_loader val_loader : pyobj) (epochs : nat) : M unit :=
  for_each (seq 0 epochs) (epoch_body train_loader val_loader epochs).

Definition evaluate_model (test_loader : pyobj) : M unit :=
  with_no_grad (
    batches <- lift (iter test_loader) ;;
    for_each batches test_step) ;;;
  m <- get_self ;;
  print (TestLossLine (MeanMetric.compute (test_loss m))) ;;;
  modify_self (fun m => set_test_loss (MeanMetric.reset (test_loss m)) m).

(** ** The script *)

(** Modelled from the spec: [NamesDataModule] lives in
    light_chat/data/datamodule.py, which is not part of the sources at
    hand.  It is the "thin data-loading wrapper" over "a
    dataset/dataloader abstraction": after [setup], three methods that
    each return the loader of one split. *)
Record NamesDataModule : Type := Build_NamesDataModule {
  train_dataloader : unit -> DataLoader;
  val_dataloader : unit -> DataLoader;
  test_dataloader : unit -> DataLoader
}.

(** The [__main__] block, from the data module as [setup] leaves it.
    The first two loaders are the results of calls; the third argument
    is the method [dataset.test_dataloader] itself. *)
Definition main (dataset : NamesDataModule) (default_generator : generator)
  : result unit * world :=
  let model := NgramModuleVanilla_init default_generator in
  (train_model (PyDataLoader (train_dataloader dataset tt))
               (PyDataLoader (val_dataloader dataset tt)) 100 ;;;
   evaluate_model (PyMethod (test_dataloader dataset)))
    (Build_world model true []).
End NgramModule.

(** ** Specification-side definitions *)

Section Specification.
Context `{Torch}.

(** The forward pass as the specification words it, one example at a
    time: look every character of the context up in the embedding
    table, concatenate the embeddings, apply an affine map, tanh, and a
    second affine map. *)
Definition embedding (e : tensor scalar) (c : Z) : list scalar :=
  match shape e with
  | [n; d] => nth (Z.to_nat c) (rows_of n d (storage e)) []
  | _ => []
  end.

Definition affine (W b : tensor scalar) (v : list scalar) : list scalar :=
  match shape W with
  | [k; m] => zip_with s_add (vecmat m v (rows_of k m (storage W))) (storage b)
  | _ => []
  end.

Definition concatenated (e : tensor scalar) (context : list Z) : list scalar :=
  concat (map (embedding e) context).

Definition pipeline (e w1 b1 w2 b2 : tensor scalar) (context : list Z) : list scalar :=
  let hidden := map s_tanh (affine w1 b1 (concatenated e context)) in
  affine w2 b2 hidden.

(** The contexts of a batch, and its logits: one row of 27 per example. *)
Definition contexts (x : batch) : list (list Z) :=
  rows_of (length (storage (label x))) 3 (storage (ngram x)).

Definition pipeline_logits (e w1 b1 w2 b2 : tensor scalar) (x : batch) : tensor scalar :=
  Tensor [length (storage (label x)); 27]
         (concat (map (pipeline e w1 b1 w2 b2) (contexts x))).

(** A tensor of a given shape, with the storage that goes with it. *)
Definition has_shape {A} (t : tensor A) (sh : list nat) : Prop :=
  shape t = sh /\ length (storage t) = numel sh.

(** A batch as the data module builds it: [B >= 1] contexts of three
    characters and [B] next characters, all characters among the 27
    symbols of the alphabet. *)
Definition wf_batch (x : batch) : Prop :=
  let B := length (storage (label x)) in
  0 < B /\ has_shape (ngram x) [B; 3] /\ has_shape (label x) [B] /\
  Forall (fun i => 0 <= i < 27)%Z (storage (ngram x)) /\
  Forall (fun y => 0 <= y < 27)%Z (storage (label x)).

(** The object as the constructor lays it out, between two steps: the
    five parameters in allocation order, with the constructor's shapes
    and no pending gradient. *)
Definition wf_model (m : NgramModuleVanilla) : Prop :=
  enc m = 0 /\ first_W m = 1 /\ first_bias m = 2 /\
  second_W m = 3 /\ second_bias m = 4 /\
  parameters m = [0; 1; 2; 3; 4] /\
  Forall2 (fun p sh => has_shape (data p) sh /\ grad p = None)
          (store m) [[27; 2]; [6; 100]; [100]; [100; 27]; [27]].

Definition fresh (t : tensor scalar) : nn_Parameter := Build_nn_Parameter t None.

Definition laid_out (e w1 b1 w2 b2 : nn_Parameter) (tl vl tsl : MeanMetric.t)
  : NgramModuleVanilla :=
  Build_NgramModuleVanilla [e; w1; b1; w2; b2] tl vl tsl 0 1 2 3 4 [0; 1; 2; 3; 4].

(** The values of the five parameters, in the order of [leaves]. *)
Definition values (m : NgramModuleVanilla) : list (tensor scalar) :=
  omap (fun r => data <$> store m !! r) (leaves m).

(** The five parameter objects, and the names that reach them. *)
Definition same_parameters (w w' : world) : Prop :=
  store (self w') = store (self w) /\
  leaves (self w') = leaves (self w) /\
  parameters (self w') = parameters (self w).

(** Both running means of the training loop hold no accumulated loss. *)
Definition metrics_clear (m : NgramModuleVanilla) : Prop :=
  train_loss m = MeanMetric.init /\ val_loss m = MeanMetric.init.

(** [n] calls of [update], one per value. *)
Definition updates (vs : list scalar) (m : MeanMetric.t) : MeanMetric.t :=
  fold_left (fun m v => MeanMetric.update v m) vs m.

(** *** Gradient descent, as a function of the parameter values *)

Definition descend (v g : tensor scalar) : tensor scalar := tsub v (scale s_lr g).

Definition sgd_step (vals : list (tensor scalar)) (x : batch) : list (tensor scalar) :=
  zip_with descend vals (autograd (loss_of x) vals).

Definition batch_loss (vals : list (tensor scalar)) (x : batch) : scalar :=
  match loss_of x vals with
  | Ok l => l
  | Raise _ => s_zero
  end.

(** The losses of one pass over the batches, each at the values the steps
    before it have left, and the values after the pass. *)
Fixpoint pass_losses (vals : list (tensor scalar)) (bs : list batch) : list scalar :=
  match bs with
  | [] => []
  | x :: bs' => batch_loss vals x :: pass_losses (sgd_step vals x) bs'
  end.

Definition pass_values (vals : list (tensor scalar)) (bs : list batch)
  : list (tensor scalar) :=
  fold_left sgd_step bs vals.

Definition trained (train : list batch) (k : nat) (vals : list (tensor scalar))
  : list (tensor scalar) :=
  Nat.iter k (fun v => pass_values v train) vals.

(** *** What the training loop prints *)

Fixpoint step_lines (epoch epochs n s : nat) (ls : list scalar) : list event :=
  match ls with
  | [] => []
  | l :: ls' => StepLine epoch epochs s n l :: step_lines epoch epochs n (S s) ls'
  end.

(** One epoch: a line per step, then the mean of this epoch's training
    losses and the mean of the validation losses at the values the epoch
    ends with. *)
Definition epoch_lines (train val : list batch) (epochs epoch : nat)
           (vals : list (tensor scalar)) : list event :=
  step_lines epoch epochs (length train) 0 (pass_losses vals train) ++
  [TrainingLossLine epoch (MeanMetric.mean (pass_losses vals train));
   ValidationLossLine epoch
     (MeanMetric.mean (map (batch_loss (pass_values vals train)) val))].

Fixpoint training_lines (train val : list batch) (epochs : nat) (es : list nat)
         (vals : list (tensor scalar)) : list event :=
  match es with
  | [] => []
  | epoch :: es' =>
      epoch_lines train val epochs epoch vals ++
      training_lines train val epochs es' (pass_values vals train)
  end.

(** *** What is assumed of torch, where a theorem says so *)

(** The cross-entropy of [n >= 1] rows of [c] logits against [n]
    classes below [c] is defined. *)
Definition cross_entropy_defined : Prop :=
  forall (logits : tensor scalar) (target : tensor Z) (n c : nat),
    0 < n -> has_shape logits [n; c] -> has_shape target [n] ->
    Forall (fun y => 0 <= y < Z.of_nat c)%Z (storage target) ->
    exists l, cross_entropy logits target = Ok l.

(** A gradient has the shape of its leaf. *)
Definition autograd_shapes : Prop :=
  forall f vals,
    Forall2 (fun g v => shape g = shape v /\ length (storage g) = length (storage v))
            (autograd f vals) vals.

(** Adding [-0.1 * g] is subtracting [0.1 * g]. *)
Definition neg_lr_sub : Prop :=
  forall a g, s_add a (s_mul (s_neg s_lr) g) = s_sub a (s_mul s_lr g).
End Specification.

(** ** The interface over the real numbers

    Exact arithmetic, the real tanh, the textbook cross-entropy with its
    mean reduction over the targets that are not [ignore_index], and the
    partial derivatives of the loss as gradients.  The sampler is a
    stand-in: a fixed congruential stream of rationals. *)

Module Ideal.

Definition R_normal (g : Z) : R * Z :=
  ((IZR (g mod 201 - 100) / 50)%R, ((g * 1103515245 + 12345) mod 2147483648)%Z).

Definition R_nll (row : list R) (y : Z) : R :=
  (ln (fold_right Rplus 0 (map exp row)) - nth (Z.to_nat y) row 0)%R.

Definition R_cross_entropy (logits : tensor R) (target : tensor Z) : result R :=
  match shape logits, shape target with
  | [n; c], [n'] =>
      if n =? n' then
        if forallb (fun y => ((0 <=? y) && (y <? Z.of_nat c) || (y =? -100))%Z)
                   (storage target)
        then
          let kept := List.filter (fun ry => negb (ry.2 =? -100)%Z)
                                  (zip (rows_of n c (storage logits)) (storage target)) in
          Ok (fold_right Rplus 0 (map (fun ry => R_nll ry.1 ry.2) kept)
              / INR (length kept))%R
        else Raise IndexError
      else Raise ValueError
  | _, _ => Raise RuntimeError
  end.

Definition R_partial (f : list (tensor R) -> result R) (vals : list (tensor R))
           (k i : nat) : R :=
  epsilon (inhabits 0%R)
    (fun d =>
       derivable_pt_lim
         (fun v =>
            match f (alter (fun t => Tensor (shape t) (<[i := v]> (storage t))) k vals) with
            | Ok l => l
            | Raise _ => 0%R
            end)
         (nth i (storage (nth k vals (Tensor [] []))) 0%R) d).

Definition R_autograd (f : list (tensor R) -> result R) (vals : list (tensor R))
  : list (tensor R) :=
  imap (fun k t => Tensor (shape t) (imap (fun i _ => R_partial f vals k i) (storage t)))
       vals.

Definition torch : Torch := {|
  scalar := R;
  s_zero := 0%R;
  s_one := 1%R;
  s_lr := (1 / 10)%R;
  s_neg := Ropp;
  s_add := Rplus;
  s_sub := Rminus;
  s_mul := Rmult;
  s_div := Rdiv;
  s_tanh := Rtrigo_def.tanh;
  generator := Z;
  manual_seed := fun seed => seed;
  normal := R_normal;
  cross_entropy := R_cross_entropy;
  autograd := R_autograd
|}.

(** Two batches, a freshly constructed model, and a data module. *)
Definition x0 : batch :=
  Build_batch (Tensor [2; 3] [0; 5; 13; 5; 13; 13]%Z) (Tensor [2] [13; 1]%Z).

Definition x1 : batch :=
  Build_batch (Tensor [1; 3] [0; 0; 1]%Z) (Tensor [1] [22]%Z).

Definition w0 : @world torch := Build_world (@NgramModuleVanilla_init torch 0%Z) true [].

Definition names : NamesDataModule :=
  Build_NamesDataModule (fun _ => [x0]) (fun _ => [x1]) (fun _ => [x1]).

Definition value (i : nat) : tensor R := nth i (@values torch (self w0)) (Tensor [] []).

End Ideal.

(** ** More specification-side definitions and inputs *)

(** [torch.cat] of two batches along their first dimension. *)
Definition batch_cat (x y : batch) : batch :=
  let B := length (storage (label x)) + length (storage (label y)) in
  Build_batch (Tensor [B; 3] (storage (ngram x) ++ storage (ngram y)))
              (Tensor [B] (storage (label x) ++ storage (label y))).

(** The same batch with every character counted from the end of the
    alphabet. *)
Definition from_the_end (x : batch) : batch :=
  Build_batch (Tensor (shape (ngram x)) (map (fun i => i - 27)%Z (storage (ngram x))))
              (label x).

(** A batch with a character that is not in the alphabet, and the fresh
    model with gradient recording off. *)
Module Inputs.
Definition bad_character : batch :=
  Build_batch (Tensor [1; 3] [0; 27; 1]%Z) (Tensor [1] [3]%Z).

Definition w0_no_grad : @world Ideal.torch :=
  Build_world (@NgramModuleVanilla_init Ideal.torch 0%Z) false [].
End Inputs.

(** * Proofs *)

(** Runs the straight-line part of a method on an explicit world. *)
Ltac run_py :=
  repeat (progress (unfold bind, lift, get_self, deref, accumulate, modify_self,
                    sgd_update, raise, ret, set_self, set_store, print; simpl)).

(** ** Storage, rows and slices *)

Section TensorFacts.
Context `{Torch}.

Lemma sample_length n g : length (sample n g).1 = n.
Proof.
  revert g. induction n as [|n IH]; intros g; simpl; [done|].
  destruct (normal g) as [x g1]. specialize (IH g1).
  destruct (sample n g1) as [xs g2]. simpl in *. by rewrite IH.
Qed.

Lemma randn_has_shape sh g : has_shape (randn sh g).1 sh.
Proof.
  unfold randn, has_shape. pose proof (sample_length (numel sh) g) as Hl.
  destruct (sample (numel sh) g) as [xs g']. simpl in *. done.
Qed.

Lemma length_rows_of {A} n m (l : list A) : length (rows_of n m l) = n.
Proof. revert l. induction n as [|n IH]; intros l; simpl; [done|]. by rewrite IH. Qed.

Lemma rows_of_concat {A} m (rows : list (list A)) :
  Forall (fun r => length r = m) rows ->
  rows_of (length rows) m (concat rows) = rows.
Proof.
  induction 1 as [|r rows Hr _ IH]; simpl; [done|].
  subst m. rewrite take_app_length, drop_app_length. by rewrite IH.
Qed.

Lemma nth_rows_of {A} k n m (l : list A) :
  k < n -> nth k (rows_of n m l) [] = take m (drop (k * m) l).
Proof.
  revert k l. induction n as [|n IH]; intros k l Hk; [lia|].
  destruct k as [|k]; simpl.
  - done.
  - rewrite IH by lia. by rewrite drop_drop.
Qed.

Lemma take_concat_uniform {A} d k (ss : list (list A)) :
  Forall (fun s => length s = d) ss ->
  take (k * d) (concat ss) = concat (take k ss).
Proof.
  intros Hss. revert k. induction Hss as [|s ss Hs _ IH]; intros k.
  - simpl. by rewrite !take_nil.
  - destruct k as [|k]; simpl; [done|].
    subst d. rewrite take_app_add'; [|done]. by rewrite IH.
Qed.

Lemma drop_concat_uniform {A} d k (ss : list (list A)) :
  Forall (fun s => length s = d) ss ->
  drop (k * d) (concat ss) = concat (drop k ss).
Proof.
  intros Hss. revert k. induction Hss as [|s ss Hs _ IH]; intros k.
  - simpl. by rewrite !drop_nil.
  - destruct k as [|k]; simpl; [done|].
    subst d. rewrite drop_app_add'; [|done]. by rewrite IH.
Qed.

Lemma rows_of_concat_uniform {A} d n k (ss : list (list A)) :
  Forall (fun s => length s = d) ss ->
  rows_of n (k * d) (concat ss) = map (@concat A) (rows_of n k ss).
Proof.
  revert ss. induction n as [|n IH]; intros ss Hss; simpl; [done|].
  rewrite take_concat_uniform, drop_concat_uniform by done.
  rewrite IH; [done|]. by apply Forall_drop.
Qed.

Lemma rows_of_map {A B} (f : A -> B) n k (l : list A) :
  rows_of n k (map f l) = map (map f) (rows_of n k l).
Proof.
  revert l. induction n as [|n IH]; intros l; simpl; [done|].
  rewrite <- IH, firstn_map, skipn_map. done.
Qed.

Lemma result_mapM_ok {A B} (f : A -> result B) (g : A -> B) l :
  Forall (fun a => f a = Ok (g a)) l -> result_mapM f l = Ok (map g l).
Proof.
  induction 1 as [|a l Ha _ IH]; simpl; [done|]. by rewrite Ha, IH.
Qed.
End TensorFacts.

(** ** The forward pass is the pipeline *)

Section ForwardFacts.
Context `{Torch}.
Local Arguments rows_of : simpl never.
Local Arguments vecmat : simpl never.
Local Arguments numel : simpl never.

Lemma length_vecmat m u W : length (vecmat m u W) = m.
Proof. unfold vecmat. by rewrite length_map, length_seq. Qed.

Lemma matmul_rows n k m (rows : list (list scalar)) (b : tensor scalar) :
  length rows = n -> Forall (fun r => length r = k) rows -> shape b = [k; m] ->
  matmul (Tensor [n; k] (concat rows)) b =
  Ok (Tensor [n; m] (concat (map (fun u => vecmat m u (rows_of k m (storage b))) rows))).
Proof.
  intros Hn Hk Hb. unfold matmul. simpl. rewrite Hb, Nat.eqb_refl.
  subst n. by rewrite rows_of_concat.
Qed.

Lemma add_bias_rows n m (rows : list (list scalar)) (bias : tensor scalar) :
  length rows = n -> Forall (fun r => length r = m) rows -> shape bias = [m] ->
  add_bias (Tensor [n; m] (concat rows)) bias =
  Ok (Tensor [n; m] (concat (map (fun u => zip_with s_add u (storage bias)) rows))).
Proof.
  intros Hn Hm Hb. unfold add_bias. simpl. rewrite Hb, Nat.eqb_refl.
  subst n. by rewrite rows_of_concat.
Qed.

Lemma embedding_slice (e : tensor scalar) (i : Z) :
  has_shape e [27; 2] -> (0 <= i < 27)%Z ->
  select_row 27 (numel [2]) (storage e) i = Ok (embedding e i) /\
  length (embedding e i) = 2.
Proof.
  intros [Hsh Hlen] Hi. change (numel [2]) with 2. change (numel [27; 2]) with 54 in Hlen.
  unfold select_row, embedding. rewrite Hsh.
  replace ((- Z.of_nat 27 <=? i) && (i <? Z.of_nat 27))%Z with true
    by (symmetry; apply andb_true_iff; split; [apply Z.leb_le | apply Z.ltb_lt]; lia).
  replace (i <? 0)%Z with false by (symmetry; apply Z.ltb_ge; lia).
  rewrite nth_rows_of by lia. split; [done|].
  rewrite length_take, length_drop, Hlen. lia.
Qed.

Lemma index_embedding (e : tensor scalar) (idx : tensor Z) :
  has_shape e [27; 2] -> Forall (fun i => 0 <= i < 27)%Z (storage idx) ->
  index e idx = Ok (Tensor (shape idx ++ [2]) (concat (map (embedding e) (storage idx)))) /\
  Forall (fun s => length s = 2) (map (embedding e) (storage idx)).
Proof.
  intros He Hidx. unfold index. rewrite (proj1 He). split.
  - rewrite (result_mapM_ok _ (embedding e)); [done|].
    eapply Forall_impl; [exact Hidx|]. intros i Hi. by apply embedding_slice.
  - apply Forall_map. eapply Forall_impl; [exact Hidx|].
    intros i Hi. by apply embedding_slice.
Qed.

Lemma view_rows_6 {A} (sh : list nat) (st : list A) B :
  0 < B -> numel sh = B * 6 -> view_rows 6 (Tensor sh st) = Ok (Tensor [B; 6] st).
Proof.
  intros HB Hn. unfold view_rows. simpl shape. simpl storage. rewrite Hn.
  replace (B * 6 =? 0) with false by (symmetry; apply Nat.eqb_neq; lia).
  rewrite Nat.Div0.mod_mul, Nat.div_mul by lia. done.
Qed.

Lemma matmul_flat n k m (st : list scalar) (b : tensor scalar) :
  shape b = [k; m] ->
  matmul (Tensor [n; k] st) b =
  Ok (Tensor [n; m] (concat (map (fun u => vecmat m u (rows_of k m (storage b)))
                                 (rows_of n k st)))).
Proof. intros Hb. unfold matmul. simpl. by rewrite Hb, Nat.eqb_refl. Qed.

Lemma forward_on_pipeline (e w1 b1 w2 b2 : tensor scalar) (x : batch) :
  has_shape e [27; 2] -> has_shape w1 [6; 100] -> has_shape b1 [100] ->
  has_shape w2 [100; 27] -> has_shape b2 [27] -> wf_batch x ->
  forward_on e w1 b1 w2 b2 x = Ok (pipeline_logits e w1 b1 w2 b2 x).
Proof.
  intros He [Hw1 _] [Hb1 Lb1] [Hw2 _] [Hb2 Lb2] (HB & [Hng Lng] & _ & Hidx & _).
  set (B := length (storage (label x))) in *.
  unfold forward_on, pipeline_logits, contexts. fold B.
  destruct (index_embedding e (ngram x) He Hidx) as [-> Hslices].
  simpl result_bind. rewrite Hng.
  rewrite (view_rows_6 _ _ B) by (done || (unfold numel; cbn; lia)).
  simpl result_bind.
  rewrite (matmul_flat B 6 100 _ w1 Hw1). simpl result_bind.
  pose proof (rows_of_concat_uniform 2 B 3 _ Hslices) as Hrows.
  change (3 * 2) with 6 in Hrows. rewrite Hrows, rows_of_map. clear Hrows.
  set (ctxs := rows_of B 3 (storage (ngram x))).
  assert (length ctxs = B) as Hc by apply length_rows_of.
  rewrite (add_bias_rows B 100 _ b1).
  2:{ by rewrite !length_map. }
  2:{ apply Forall_map, Forall_forall. intros u _. apply length_vecmat. }
  2:{ done. }
  simpl result_bind. unfold tanh. simpl shape. simpl storage.
  rewrite concat_map.
  rewrite (matmul_rows B 100 27 _ w2).
  2:{ by rewrite !length_map. }
  2:{ rewrite !Forall_map. apply Forall_forall. intros u _. unfold compose. cbv beta.
      rewrite length_map, length_zip_with, length_vecmat, Lb1. unfold numel. cbn. lia. }
  2:{ done. }
  simpl result_bind.
  rewrite (add_bias_rows B 27 _ b2).
  2:{ by rewrite !length_map. }
  2:{ apply Forall_map, Forall_forall. intros u _. apply length_vecmat. }
  2:{ done. }
  rewrite !map_map. f_equal. f_equal. f_equal. apply map_ext. intros ctx.
  unfold pipeline, concatenated, affine. by rewrite Hw1, Hw2.
Qed.
End ForwardFacts.

(** ** One step on a model as the constructor lays it out *)

Section StepFacts.
Context `{Torch}.
Local Arguments rows_of : simpl never.
Local Arguments vecmat : simpl never.
Local Arguments numel : simpl never.
Local Arguments forward_on : simpl never.
Local Arguments loss_of : simpl never.
Local Arguments pipeline_logits : simpl never.
Local Arguments iadd : simpl never.
Local Arguments scale : simpl never.
Local Arguments tsub : simpl never.

Lemma wf_model_inv (m : NgramModuleVanilla) :
  wf_model m ->
  exists e w1 b1 w2 b2,
    m = laid_out (fresh e) (fresh w1) (fresh b1) (fresh w2) (fresh b2)
                 (train_loss m) (val_loss m) (test_loss m) /\
    has_shape e [27; 2] /\ has_shape w1 [6; 100] /\ has_shape b1 [100] /\
    has_shape w2 [100; 27] /\ has_shape b2 [27].
Proof.
  destruct m as [st tl vl tsl r0 r1 r2 r3 r4 ps]. unfold wf_model. simpl.
  intros (-> & -> & -> & -> & -> & -> & Hst).
  repeat match goal with
         | Hf : Forall2 _ _ (_ :: _) |- _ =>
             apply Forall2_cons_inv_r in Hf as ([? [?|]] & ? & [? ?] & ? & ->); [done|]
         | Hf : Forall2 _ _ [] |- _ => apply Forall2_nil_inv_r in Hf as ->
         end.
  simpl in *. unfold laid_out, fresh. eauto 12.
Qed.

Lemma model_step_world x w : (model_step x w).2 = w.
Proof.
  unfold model_step, criterion, forward, bind, lift, get_self.
  repeat (match goal with |- context [deref ?m ?r] => destruct (deref m r) end; simpl; try done).
  match goal with |- context [forward_on ?a ?b ?c ?d ?e ?f] => destruct (forward_on a b c d e f) end; simpl; try done.
  match goal with |- context [cross_entropy ?a ?b] => destruct (cross_entropy a b) end; simpl; done.
Qed.

Lemma length_concat_uniform {A} d (ss : list (list A)) :
  Forall (fun s => length s = d) ss -> length (concat ss) = length ss * d.
Proof.
  induction 1 as [|s ss Hs _ IH]; simpl; [done|].
  rewrite length_app, IH, Hs. done.
Qed.

Lemma Forall_rows_of {A} (P : A -> Prop) n m (l : list A) :
  length l = n * m -> Forall P l ->
  Forall (fun r => length r = m /\ Forall P r) (rows_of n m l).
Proof.
  revert l. induction n as [|n IH]; intros l Hl HP; [constructor|].
  unfold rows_of; fold (@rows_of A). constructor.
  - split; [rewrite length_take; lia | by apply Forall_take].
  - apply IH; [rewrite length_drop; lia | by apply Forall_drop].
Qed.

Lemma concatenated_width (e : tensor scalar) (x : batch) :
  has_shape e [27; 2] -> wf_batch x ->
  Forall (fun ctx => length (concatenated e ctx) = 6) (contexts x).
Proof.
  intros He (_ & [_ Lng] & _ & Hidx & _). unfold contexts.
  eapply Forall_impl; [apply Forall_rows_of; [exact Lng | exact Hidx]|].
  intros ctx [Hlen Hctx]. unfold concatenated.
  rewrite (length_concat_uniform 2), length_map, Hlen; [done|].
  apply Forall_map. eapply Forall_impl; [exact Hctx|].
  intros i Hi. by apply embedding_slice.
Qed.

Lemma pipeline_logits_shape (e w1 b1 w2 b2 : tensor scalar) (x : batch) :
  has_shape w2 [100; 27] -> has_shape b2 [27] ->
  has_shape (pipeline_logits e w1 b1 w2 b2 x) [length (storage (label x)); 27].
Proof.
  intros [Hw2 _] [_ Lb2]. unfold pipeline_logits, contexts, has_shape. simpl. split; [done|].
  rewrite (length_concat_uniform 27).
  - rewrite length_map, length_rows_of. unfold numel. simpl. lia.
  - apply Forall_map, Forall_forall. intros ctx _. unfold pipeline, affine.
    rewrite Hw2, length_zip_with, length_vecmat, Lb2. unfold numel. simpl. lia.
Qed.

Lemma cross_entropy_pipeline (e w1 b1 w2 b2 : tensor scalar) (x : batch) :
  cross_entropy_defined ->
  has_shape w2 [100; 27] -> has_shape b2 [27] -> wf_batch x ->
  exists l, cross_entropy (pipeline_logits e w1 b1 w2 b2 x) (label x) = Ok l.
Proof.
  intros Hce Hw2 Hb2 (HB & _ & Hl & _ & Hy).
  eapply Hce; [exact HB | by apply pipeline_logits_shape | exact Hl | exact Hy].
Qed.

Lemma model_step_laid_out e w1 b1 w2 b2 tl vl tsl ge out x l :
  has_shape (data e) [27; 2] -> has_shape (data w1) [6; 100] ->
  has_shape (data b1) [100] -> has_shape (data w2) [100; 27] ->
  has_shape (data b2) [27] -> wf_batch x ->
  cross_entropy (pipeline_logits (data e) (data w1) (data b1) (data w2) (data b2) x)
                (label x) = Ok l ->
  model_step x (Build_world (laid_out e w1 b1 w2 b2 tl vl tsl) ge out) =
  (Ok (Build_loss l (if ge then Some x else None)),
   Build_world (laid_out e w1 b1 w2 b2 tl vl tsl) ge out).
Proof.
  intros He Hw1 Hb1 Hw2 Hb2 Hx Hl.
  unfold model_step, criterion, forward, bind, lift, get_self, deref. simpl.
  rewrite forward_on_pipeline by done. by rewrite Hl.
Qed.

Lemma loss_of_pipeline (e w1 b1 w2 b2 : tensor scalar) (x : batch) :
  has_shape e [27; 2] -> has_shape w1 [6; 100] -> has_shape b1 [100] ->
  has_shape w2 [100; 27] -> has_shape b2 [27] -> wf_batch x ->
  loss_of x [e; w1; b1; w2; b2] =
  cross_entropy (pipeline_logits e w1 b1 w2 b2 x) (label x).
Proof.
  intros. unfold loss_of, criterion. by rewrite forward_on_pipeline.
Qed.

Lemma zip_with_neg_lr (a g : list scalar) :
  neg_lr_sub ->
  zip_with s_add a (map (s_mul (s_neg s_lr)) g) =
  zip_with s_sub a (map (s_mul s_lr) g).
Proof.
  intros Hlaw. revert g. induction a as [|x a IH]; intros [|y g]; simpl; try done.
  by rewrite Hlaw, IH.
Qed.

Lemma iadd_scale_neg_lr (p g : tensor scalar) :
  neg_lr_sub -> shape g = shape p ->
  iadd p (scale (s_neg s_lr) g) = Ok (descend p g).
Proof.
  intros Hlaw Hsh. unfold descend, iadd, scale, tsub. cbn.
  rewrite decide_True by done. by rewrite zip_with_neg_lr.
Qed.

Lemma training_step_laid_out e w1 b1 w2 b2 tl vl tsl out x l :
  cross_entropy_defined -> autograd_shapes -> neg_lr_sub ->
  has_shape e [27; 2] -> has_shape w1 [6; 100] -> has_shape b1 [100] ->
  has_shape w2 [100; 27] -> has_shape b2 [27] -> wf_batch x ->
  cross_entropy (pipeline_logits e w1 b1 w2 b2 x) (label x) = Ok l ->
  exists ge gw1 gb1 gw2 gb2,
    autograd (loss_of x) [e; w1; b1; w2; b2] = [ge; gw1; gb1; gw2; gb2] /\
    training_step x
      (Build_world (laid_out (fresh e) (fresh w1) (fresh b1) (fresh w2) (fresh b2)
                             tl vl tsl) true out) =
    (Ok (Build_loss l (Some x)),
     Build_world (laid_out (fresh (descend e ge)) (fresh (descend w1 gw1))
                           (fresh (descend b1 gb1)) (fresh (descend w2 gw2))
                           (fresh (descend b2 gb2))
                           (MeanMetric.update l tl) vl tsl) true out).
Proof.
  intros Hce Hag Hlr He Hw1 Hb1 Hw2 Hb2 Hx Hl.
  pose proof (Hag (loss_of x) [e; w1; b1; w2; b2]) as Hg.
  repeat match goal with
         | Hf : Forall2 _ _ (_ :: _) |- _ =>
             apply Forall2_cons_inv_r in Hf as (? & ? & [? ?] & ? & ?)
         | Hf : Forall2 _ _ [] |- _ => apply Forall2_nil_inv_r in Hf
         end.
  subst. 
  match goal with Hag : autograd _ _ = _ |- _ => rename Hag into Hgs end.
  do 5 eexists. split; [exact Hgs|].
  unfold fresh. unfold training_step. unfold bind at 1.
  rewrite model_step_laid_out with (l := l) by done.
  unfold backward. simpl grad_fn. 
  run_py. rewrite Hgs. run_py.
  repeat (rewrite iadd_scale_neg_lr by done; run_py). done.
Qed.
Local Arguments descend : simpl never.

Lemma descend_has_shape (v g : tensor scalar) sh :
  has_shape v sh -> shape g = shape v -> length (storage g) = length (storage v) ->
  has_shape (descend v g) sh.
Proof.
  intros [Hs Hl] Hg Hlg. unfold descend, tsub, scale, has_shape. cbn.
  split; [done|]. rewrite length_zip_with, length_map. lia.
Qed.

Lemma training_step_wf (w : world) (x : batch) :
  cross_entropy_defined -> autograd_shapes -> neg_lr_sub ->
  wf_model (self w) -> grad_enabled w = true -> wf_batch x ->
  exists l w',
    loss_of x (values (self w)) = Ok l /\
    training_step x w = (Ok (Build_loss l (Some x)), w') /\
    wf_model (self w') /\
    values (self w') = sgd_step (values (self w)) x /\
    train_loss (self w') = MeanMetric.update l (train_loss (self w)) /\
    val_loss (self w') = val_loss (self w) /\
    test_loss (self w') = test_loss (self w) /\
    grad_enabled w' = true /\
    stdout w' = stdout w.
Proof.
  intros Hce Hag Hlr Hwf Hge Hx. destruct w as [m ge out]. simpl in *. subst ge.
  destruct (wf_model_inv m Hwf) as (e & w1 & b1 & w2 & b2 & Hm & He & Hw1 & Hb1 & Hw2 & Hb2).
  clear Hwf. set (tl := train_loss m) in *. set (vl := val_loss m) in *.
  set (tsl := test_loss m) in *. clearbody tl vl tsl. subst m.
  destruct (cross_entropy_pipeline e w1 b1 w2 b2 x Hce Hw2 Hb2 Hx) as [l Hl].
  destruct (training_step_laid_out e w1 b1 w2 b2 tl vl tsl
              out x l Hce Hag Hlr He Hw1 Hb1 Hw2 Hb2 Hx Hl)
    as (ge & gw1 & gb1 & gw2 & gb2 & Hgs & Hstep).
  pose proof (Hag (loss_of x) [e; w1; b1; w2; b2]) as Hshapes. rewrite Hgs in Hshapes.
  repeat match goal with
         | Hf : Forall2 _ (_ :: _) (_ :: _) |- _ =>
             apply Forall2_cons_1 in Hf as [[? ?] Hf]
         end.
  exists l. eexists.
  split; [|split; [exact Hstep|]].
  - unfold values, leaves. simpl. by rewrite loss_of_pipeline.
  - unfold wf_model, laid_out, values, leaves, sgd_step. simpl. rewrite Hgs. simpl.
    repeat split; try done.
    repeat (constructor; [split; [by apply descend_has_shape|done]|]).
    constructor.
Qed.
End StepFacts.

(** ** The running mean *)

Section MetricFacts.
Context `{Torch}.

Lemma updates_fold vs a c :
  updates vs (MeanMetric.Build a c) =
  MeanMetric.Build (fold_left s_add vs a)
                   (Nat.iter (length vs) (fun c => s_add c s_one) c).
Proof.
  revert a c. induction vs as [|v vs IH]; intros a c; [done|].
  unfold updates in *. simpl fold_left. unfold MeanMetric.update at 2. simpl.
  rewrite IH. f_equal. symmetry.
  exact (Nat.iter_succ_r (length vs) (fun c0 => s_add c0 s_one) c).
Qed.

Lemma compute_updates vs :
  MeanMetric.compute (updates vs MeanMetric.init) = MeanMetric.mean vs.
Proof. unfold MeanMetric.init. by rewrite updates_fold. Qed.

Lemma updates_app vs1 vs2 m : updates (vs1 ++ vs2) m = updates vs2 (updates vs1 m).
Proof. apply fold_left_app. Qed.
End MetricFacts.

(** ** Loops *)

Section LoopFacts.
Context `{Torch}.
Local Arguments loss_of : simpl never.

Lemma for_each_inv {X} (P : world -> Prop) (body : X -> M unit) (l : list X) (w : world) :
  (forall x w0, P w0 -> P (body x w0).2) -> P w -> P (for_each l body w).2.
Proof.
  intros Hbody. revert w. induction l as [|x l IH]; intros w Hw; simpl; [done|].
  unfold bind. specialize (Hbody x w Hw). destruct (body x w) as [[[]|e] w1]; simpl in *.
  - by apply IH.
  - done.
Qed.

Lemma for_each_app {X} (body : X -> M unit) (l1 l2 : list X) (w : world) :
  for_each (l1 ++ l2) body w =
  (for_each l1 body ;;; for_each l2 body) w.
Proof.
  revert w. induction l1 as [|x l1 IH]; intros w; simpl.
  - done.
  - unfold bind. destruct (body x w) as [[[]|e] w1]; [|done]. apply IH.
Qed.

Lemma model_step_wf (w : world) (x : batch) :
  cross_entropy_defined -> wf_model (self w) -> wf_batch x ->
  exists l,
    loss_of x (values (self w)) = Ok l /\
    model_step x w = (Ok (Build_loss l (if grad_enabled w then Some x else None)), w).
Proof.
  intros Hce Hwf Hx. destruct w as [m ge out]. simpl in *.
  destruct (wf_model_inv m Hwf) as (e & w1 & b1 & w2 & b2 & Hm & He & Hw1 & Hb1 & Hw2 & Hb2).
  clear Hwf. set (tl := train_loss m) in *. set (vl := val_loss m) in *.
  set (tsl := test_loss m) in *. clearbody tl vl tsl. subst m.
  destruct (cross_entropy_pipeline e w1 b1 w2 b2 x Hce Hw2 Hb2 Hx) as [l Hl].
  exists l. split.
  - unfold values, leaves. simpl. by rewrite loss_of_pipeline.
  - by apply model_step_laid_out.
Qed.

Lemma validation_step_wf (w : world) (x : batch) :
  cross_entropy_defined -> wf_model (self w) -> wf_batch x ->
  validation_step x w =
  (Ok tt, set_self (set_val_loss (MeanMetric.update (batch_loss (values (self w)) x)
                                                    (val_loss (self w))) (self w)) w).
Proof.
  intros Hce Hwf Hx. destruct (model_step_wf w x Hce Hwf Hx) as (l & Hl & Hstep).
  unfold validation_step, bind. rewrite Hstep. unfold batch_loss. rewrite Hl. done.
Qed.

Lemma test_step_wf (w : world) (x : batch) :
  cross_entropy_defined -> wf_model (self w) -> wf_batch x ->
  test_step x w =
  (Ok tt, set_self (set_test_loss (MeanMetric.update (batch_loss (values (self w)) x)
                                                     (test_loss (self w))) (self w)) w).
Proof.
  intros Hce Hwf Hx. destruct (model_step_wf w x Hce Hwf Hx) as (l & Hl & Hstep).
  unfold test_step, bind. rewrite Hstep. unfold batch_loss. rewrite Hl. done.
Qed.

Lemma validation_pass (w : world) (bs : list batch) :
  cross_entropy_defined -> wf_model (self w) -> Forall wf_batch bs ->
  for_each bs validation_step w =
  (Ok tt, set_self (set_val_loss (updates (map (batch_loss (values (self w))) bs)
                                          (val_loss (self w))) (self w)) w).
Proof.
  intros Hce Hwf Hbs. revert w Hwf. induction Hbs as [|x bs Hx _ IH]; intros w Hwf.
  - destruct w as [[] ? ?]. done.
  - simpl for_each. unfold bind. rewrite validation_step_wf by done.
    rewrite IH by (destruct w as [[] ? ?]; done).
    destruct w as [[] ? ?]. done.
Qed.
End LoopFacts.

(** ** Epochs *)

Section EpochFacts.
Context `{Torch}.
Local Arguments loss_of : simpl never.
Local Arguments sgd_step : simpl never.
Local Arguments training_step : simpl never.
Local Arguments MeanMetric.compute : simpl never.
Local Arguments updates : simpl never.

Lemma bind_ok {A B} (c : M A) (k : A -> M B) (w : world) (a : A) (w' : world) :
  c w = (Ok a, w') -> bind c k w = k a w'.
Proof. intros Hc. unfold bind. by rewrite Hc. Qed.

Lemma bind_raise {A B} (c : M A) (k : A -> M B) (w : world) (e : exn) (w' : world) :
  c w = (Raise e, w') -> bind c k w = (Raise e, w').
Proof. intros Hc. unfold bind. by rewrite Hc. Qed.

Hypothesis Hce : cross_entropy_defined.
Hypothesis Hag : autograd_shapes.
Hypothesis Hlr : neg_lr_sub.

Lemma training_pass (epoch epochs n : nat) (tl : pyobj) (bs : list batch) :
  len tl = Ok n -> Forall wf_batch bs ->
  forall (s : nat) (w : world),
    wf_model (self w) -> grad_enabled w = true ->
    exists w',
      for_each (zip (seq s (length bs)) bs)
        (fun ib => loss <- training_step ib.2 ;;
                   n <- lift (len tl) ;;
                   print (StepLine epoch epochs ib.1 n (item loss))) w = (Ok tt, w') /\
      wf_model (self w') /\
      values (self w') = pass_values (values (self w)) bs /\
      train_loss (self w') =
        updates (pass_losses (values (self w)) bs) (train_loss (self w)) /\
      val_loss (self w') = val_loss (self w) /\
      test_loss (self w') = test_loss (self w) /\
      grad_enabled w' = true /\
      stdout w' = stdout w ++ step_lines epoch epochs n s (pass_losses (values (self w)) bs).
Proof using Hce Hag Hlr.
  intros Hlen Hbs. induction Hbs as [|x bs Hx _ IH]; intros s w Hwf Hge.
  - exists w. simpl. rewrite app_nil_r. done.
  - destruct (training_step_wf w x Hce Hag Hlr Hwf Hge Hx)
      as (l & w1 & Hl & Hstep & Hwf1 & Hv1 & Htl1 & Hvl1 & Htsl1 & Hge1 & Hout1).
    set (w2 := Build_world (self w1) (grad_enabled w1) (stdout w1 ++ [StepLine epoch epochs s n l])).
    destruct (IH (S s) w2) as (w' & Hrun & Hwf' & Hv' & Htl' & Hvl' & Htsl' & Hge' & Hout');
      [done|done|].
    exists w'. simpl length. simpl seq. simpl zip. simpl for_each.
    rewrite (bind_ok _ _ w tt w2).
    2:{ rewrite (bind_ok _ _ w _ w1 Hstep).
        rewrite (bind_ok _ _ w1 n w1) by (by rewrite Hlen). done. }
    rewrite Hrun. simpl in *.
    unfold batch_loss. rewrite Hl. rewrite <- Hv1.
    split_and!; try done; try congruence.
    + rewrite Htl', Htl1. done.
    + rewrite Hout', Hout1, <- app_assoc. done.
Qed.

Lemma epoch_body_wf (train val : list batch) (epochs epoch : nat) (w : world) :
  Forall wf_batch train -> Forall wf_batch val ->
  wf_model (self w) -> grad_enabled w = true -> metrics_clear (self w) ->
  exists w',
    epoch_body (PyDataLoader train) (PyDataLoader val) epochs epoch w = (Ok tt, w') /\
    wf_model (self w') /\ grad_enabled w' = true /\ metrics_clear (self w') /\
    test_loss (self w') = test_loss (self w) /\
    values (self w') = pass_values (values (self w)) train /\
    stdout w' = stdout w ++ epoch_lines train val epochs epoch (values (self w)).
Proof using Hce Hag Hlr.
  intros Htrain Hval Hwf Hge [Htl Hvl].
  destruct (training_pass epoch epochs (length train) (PyDataLoader train) train
              eq_refl Htrain 0 w Hwf Hge)
    as (w1 & Hrun & Hwf1 & Hv1 & Htl1 & Hvl1 & Htsl1 & Hge1 & Hout1).
  pose proof (validation_pass w1 val Hce Hwf1 Hval) as Hvrun.
  unfold epoch_body. simpl iter. unfold enumerate.
  rewrite (bind_ok _ _ w train w eq_refl).
  rewrite (bind_ok _ _ w tt w1 Hrun).
  rewrite (bind_ok _ _ w1 val w1 eq_refl).
  rewrite (bind_ok _ _ w1 tt _ Hvrun).
  eexists. split; [reflexivity|].
  split_and!.
  - exact Hwf1.
  - exact Hge1.
  - done.
  - exact Htsl1.
  - exact Hv1.
  - cbn [stdout self set_self set_val_loss set_train_loss train_loss val_loss].
    rewrite Hout1, Htl1, Hvl1, Htl, Hvl, !compute_updates, Hv1.
    unfold epoch_lines. by rewrite <- !app_assoc.
Qed.

Lemma train_model_wf (train val : list batch) (epochs : nat) (es : list nat) (w : world) :
  Forall wf_batch train -> Forall wf_batch val ->
  wf_model (self w) -> grad_enabled w = true -> metrics_clear (self w) ->
  exists w',
    for_each es (epoch_body (PyDataLoader train) (PyDataLoader val) epochs) w = (Ok tt, w') /\
    wf_model (self w') /\ grad_enabled w' = true /\ metrics_clear (self w') /\
    test_loss (self w') = test_loss (self w) /\
    values (self w') = trained train (length es) (values (self w)) /\
    stdout w' = stdout w ++ training_lines train val epochs es (values (self w)).
Proof using Hce Hag Hlr.
  intros Htrain Hval. revert w. induction es as [|epoch es IH]; intros w Hwf Hge Hclear.
  - exists w. simpl. rewrite app_nil_r. done.
  - destruct (epoch_body_wf train val epochs epoch w Htrain Hval Hwf Hge Hclear)
      as (w1 & Hrun & Hwf1 & Hge1 & Hclear1 & Htsl1 & Hv1 & Hout1).
    destruct (IH w1 Hwf1 Hge1 Hclear1)
      as (w' & Hrun' & Hwf' & Hge' & Hclear' & Htsl' & Hv' & Hout').
    exists w'. simpl for_each. rewrite (bind_ok _ _ w tt w1 Hrun).
    split_and!; try done; try congruence.
    + rewrite Hv', Hv1. unfold trained. simpl length.
      symmetry. exact (Nat.iter_succ_r (length es) (fun v => pass_values v train) _).
    + rewrite Hout', Hout1, Hv1, <- app_assoc. done.
Qed.
End EpochFacts.

(** ** What the steps leave alone, and the constructor *)

Section Frames.
Context `{Torch}.

Lemma same_parameters_refl w : same_parameters w w.
Proof. done. Qed.

Lemma test_step_same_parameters w0 x w :
  same_parameters w0 w -> same_parameters w0 (test_step x w).2.
Proof.
  intros Hw. unfold test_step, bind. pose proof (model_step_world x w) as Hms.
  destruct (model_step x w) as [[l|e] w1]; simpl in *; subst w1; done.
Qed.

Lemma sample_app n k g :
  sample (n + k) g =
  let (xs, g1) := sample n g in
  let (ys, g2) := sample k g1 in
  (xs ++ ys, g2).
Proof.
  revert g. induction n as [|n IH]; intros g; simpl.
  - by destruct (sample k g).
  - destruct (normal g) as [x g1]. rewrite IH.
    destruct (sample n g1) as [xs g2]. by destruct (sample k g2).
Qed.

(** C4.  Whatever is passed as the test loader, and whatever state the
    model is in, [evaluate_model] leaves the five parameter objects as
    they were: same tensors, same (absent or present) gradients, reached
    by the same names.  The gradient mode it switched off is back to what
    it was, also when a step raises. *)
Theorem evaluate_model_keeps_parameters (test_loader : pyobj) (w : world) :
  same_parameters w (evaluate_model test_loader w).2 /\
  values (self (evaluate_model test_loader w).2) = values (self w) /\
  grad_enabled (evaluate_model test_loader w).2 = grad_enabled w.
Proof.
  assert (same_parameters w (evaluate_model test_loader w).2 /\
          grad_enabled (evaluate_model test_loader w).2 = grad_enabled w) as [Hs Hg].
  { unfold evaluate_model, with_no_grad, bind, lift.
    destruct (iter test_loader) as [bs|e]; [|by destruct w].
    pose proof (for_each_inv (same_parameters w) test_step bs (set_grad_enabled false w)
                  (test_step_same_parameters w) (same_parameters_refl w)) as Hin.
    destruct (for_each bs test_step (set_grad_enabled false w)) as [[[]|e] w1];
      simpl in *; done. }
  split; [done|]. split; [|done].
  destruct Hs as (Hst & Hlv & _). unfold values. by rewrite Hst, Hlv.
Qed.

(** C10.  [validation_step] touches neither the five parameters nor the
    [train_loss] metric (nor [test_loss], the gradient mode or the
    console), whatever the gradient mode: when [model_step] yields a loss
    the only change is that [val_loss] has been updated with it, and when
    [model_step] raises nothing has changed at all. *)
Theorem validation_step_frame (x : batch) (w : world) :
  same_parameters w (validation_step x w).2 /\
  train_loss (self (validation_step x w).2) = train_loss (self w) /\
  test_loss (self (validation_step x w).2) = test_loss (self w) /\
  grad_enabled (validation_step x w).2 = grad_enabled w /\
  stdout (validation_step x w).2 = stdout w /\
  match model_step x w with
  | (Ok loss, _) =>
      (validation_step x w).1 = Ok tt /\
      val_loss (self (validation_step x w).2) =
        MeanMetric.update (item loss) (val_loss (self w))
  | (Raise e, _) =>
      validation_step x w = (Raise e, w)
  end.
Proof.
  unfold validation_step, bind. pose proof (model_step_world x w) as Hms.
  destruct (model_step x w) as [[l|e] w1]; simpl in *; subst w1; done.
Qed.

(** C5.  After one [update] per value of a sequence, from the initial
    state, [compute] returns the arithmetic mean of the sequence: the sum
    of the values over their number.  After [reset] the metric is back in
    its initial state, both accumulators at zero, where [compute] is the
    undefined quotient of zero by zero. *)
Theorem MeanMetric_running_mean (vs : list scalar) (m : MeanMetric.t) :
  MeanMetric.compute (updates vs MeanMetric.init) = MeanMetric.mean vs /\
  MeanMetric.reset (updates vs m) = MeanMetric.init /\
  MeanMetric.mean_value MeanMetric.init = s_zero /\
  MeanMetric.weight MeanMetric.init = s_zero /\
  MeanMetric.compute (MeanMetric.reset (updates vs m)) = s_div s_zero s_zero.
Proof. split; [apply compute_updates | done]. Qed.

(** C9.  Two runs of the constructor, whatever the state of torch's
    global generator in each, build the same object, with the same values
    in all five parameter tensors: together, in order, the first 3481
    samples of the generator seeded with 42. *)
Theorem init_deterministic (g1 g2 : generator) :
  NgramModuleVanilla_init g1 = NgramModuleVanilla_init g2 /\
  concat (map storage (values (NgramModuleVanilla_init g1))) =
    (sample (54 + 600 + 100 + 2700 + 27) (manual_seed 42)).1.
Proof.
  split; [done|].
  rewrite !sample_app. unfold NgramModuleVanilla_init, randn, alloc.
  change (numel [27; 2]) with 54. change (numel [6; 100]) with 600.
  change (numel [100]) with 100. change (numel [100; 27]) with 2700.
  change (numel [27]) with 27.
  destruct (sample 54 (manual_seed 42)) as [xs0 g].
  destruct (sample 600 g) as [xs1 g']. destruct (sample 100 g') as [xs2 g''].
  destruct (sample 2700 g'') as [xs3 g3]. destruct (sample 27 g3) as [xs4 g4].
  simpl. by rewrite app_nil_r, <- !app_assoc.
Qed.

(** C7.  The constructor creates exactly five parameter objects: [enc]
    of shape 27 x 2, [first_W] of shape 6 x 100, [first_bias] of length
    100, [second_W] of shape 100 x 27 and [second_bias] of length 27,
    none with a gradient yet; the list [parameters] holds these five
    objects, each once. *)
Theorem init_five_parameters (g : generator) :
  let m := NgramModuleVanilla_init g in
  length (store m) = 5 /\
  (exists e w1 b1 w2 b2,
      store m !! enc m = Some (Build_nn_Parameter e None) /\ has_shape e [27; 2] /\
      store m !! first_W m = Some (Build_nn_Parameter w1 None) /\ has_shape w1 [6; 100] /\
      store m !! first_bias m = Some (Build_nn_Parameter b1 None) /\ has_shape b1 [100] /\
      store m !! second_W m = Some (Build_nn_Parameter w2 None) /\ has_shape w2 [100; 27] /\
      store m !! second_bias m = Some (Build_nn_Parameter b2 None) /\ has_shape b2 [27]) /\
  parameters m = [enc m; first_W m; first_bias m; second_W m; second_bias m] /\
  NoDup (parameters m).
Proof.
  unfold NgramModuleVanilla_init, alloc.
  pose proof (randn_has_shape [27; 2] (manual_seed 42)) as H0.
  destruct (randn [27; 2] (manual_seed 42)) as [t0 g0].
  pose proof (randn_has_shape [6; 100] g0) as H1.
  destruct (randn [6; 100] g0) as [t1 g1].
  pose proof (randn_has_shape [100] g1) as H2.
  destruct (randn [100] g1) as [t2 g2].
  pose proof (randn_has_shape [100; 27] g2) as H3.
  destruct (randn [100; 27] g2) as [t3 g3].
  pose proof (randn_has_shape [27] g3) as H4.
  destruct (randn [27] g3) as [t4 g4].
  simpl in *. split_and!; try done.
  - exists t0, t1, t2, t3, t4. done.
  - by apply (bool_decide_unpack _).
Qed.
End Frames.

(** ** Steps, epochs and the script *)

Section Claims.
Context `{Torch}.
Local Arguments loss_of : simpl never.
Local Arguments sgd_step : simpl never.
Local Arguments training_step : simpl never.
Local Arguments pipeline_logits : simpl never.

Lemma init_wf (g : generator) :
  wf_model (NgramModuleVanilla_init g) /\ metrics_clear (NgramModuleVanilla_init g) /\
  test_loss (NgramModuleVanilla_init g) = MeanMetric.init.
Proof.
  unfold NgramModuleVanilla_init, alloc.
  pose proof (randn_has_shape [27; 2] (manual_seed 42)) as H0.
  destruct (randn [27; 2] (manual_seed 42)) as [t0 g0].
  pose proof (randn_has_shape [6; 100] g0) as H1.
  destruct (randn [6; 100] g0) as [t1 g1].
  pose proof (randn_has_shape [100] g1) as H2.
  destruct (randn [100] g1) as [t2 g2].
  pose proof (randn_has_shape [100; 27] g2) as H3.
  destruct (randn [100; 27] g2) as [t3 g3].
  pose proof (randn_has_shape [27] g3) as H4.
  destruct (randn [27] g3) as [t4 g4].
  simpl in *. split; [|done]. unfold wf_model. simpl. split_and!; try done.
  repeat (constructor; [done|]). constructor.
Qed.

Lemma wf_model_grads (m : NgramModuleVanilla) :
  wf_model m -> length (store m) = 5 /\ length (values m) = 5 /\
                Forall (fun p => grad p = None) (store m).
Proof.
  intros Hwf. destruct (wf_model_inv m Hwf) as (e & w1 & b1 & w2 & b2 & -> & _).
  unfold laid_out, fresh. simpl. split_and!; try done.
  repeat (constructor; [done|]). constructor.
Qed.

(** C1.  One training step is one step of gradient descent.  On a model as
    the constructor lays it out, with no gradient pending and gradient
    recording on, and for a well-formed batch, [training_step] returns the
    loss of the batch and leaves each of the five parameter tensors at
    its previous value minus 0.1 times the gradient of that loss with
    respect to it, every gradient taken at the previous values;
    afterwards the [grad] of every parameter is [None]. *)
Theorem training_step_gradient_descent (w : world) (x : batch) :
  cross_entropy_defined -> autograd_shapes -> neg_lr_sub ->
  wf_model (self w) -> grad_enabled w = true -> wf_batch x ->
  exists loss w',
    training_step x w = (Ok loss, w') /\
    loss_of x (values (self w)) = Ok (item loss) /\
    values (self w') =
      zip_with (fun p g => tsub p (scale s_lr g))
               (values (self w)) (autograd (loss_of x) (values (self w))) /\
    length (values (self w')) = 5 /\
    length (store (self w')) = 5 /\
    Forall (fun p => grad p = None) (store (self w')).
Proof.
  intros Hce Hag Hlr Hwf Hge Hx.
  destruct (training_step_wf w x Hce Hag Hlr Hwf Hge Hx)
    as (l & w' & Hl & Hstep & Hwf' & Hv' & _).
  destruct (wf_model_grads _ Hwf') as (Hlen & Hlv & Hgrads).
  exists (Build_loss l (Some x)), w'. split_and!; done.
Qed.

(** C2.  For a well-formed batch, [model_step] returns the cross-entropy
    of the batch's labels and the logits of the pipeline: the embeddings
    of the three characters of each context, concatenated into a vector
    of width 6, through the affine map of [first_W] and [first_bias],
    tanh, and the affine map of [second_W] and [second_bias].  The model
    is left as it was. *)
Theorem model_step_cross_entropy_of_pipeline
        (w : world) (x : batch) (e w1 b1 w2 b2 : tensor scalar) :
  cross_entropy_defined -> wf_model (self w) -> wf_batch x ->
  values (self w) = [e; w1; b1; w2; b2] ->
  Forall (fun ctx => length (concatenated e ctx) = 6) (contexts x) /\
  exists l,
    cross_entropy (pipeline_logits e w1 b1 w2 b2 x) (label x) = Ok l /\
    model_step x w = (Ok (Build_loss l (if grad_enabled w then Some x else None)), w).
Proof.
  intros Hce Hwf Hx Hvals. destruct w as [m ge out]. simpl in *.
  destruct (wf_model_inv m Hwf)
    as (e' & w1' & b1' & w2' & b2' & Hm & He & Hw1 & Hb1 & Hw2 & Hb2).
  rewrite Hm in Hvals. unfold values, leaves, laid_out, fresh in Hvals. simpl in Hvals.
  injection Hvals as -> -> -> -> ->.
  split; [by apply concatenated_width|].
  destruct (cross_entropy_pipeline e w1 b1 w2 b2 x Hce Hw2 Hb2 Hx) as [l Hl].
  exists l. split; [done|]. rewrite Hm. by apply model_step_laid_out.
Qed.

Lemma evaluate_model_method (call : unit -> DataLoader) (w : world) :
  evaluate_model (PyMethod call) w = (Raise TypeError, w).
Proof. by destruct w. Qed.

(** Whatever the data, the script does not end normally. *)
Lemma main_never_completes (dataset : NamesDataModule) (g : generator) :
  exists e, (main dataset g).1 = Raise e.
Proof.
  unfold main, bind.
  destruct (train_model _ _ 100 _) as [[[]|e] w]; [|by exists e].
  rewrite evaluate_model_method. by exists TypeError.
Qed.

(** C8, as the code has it.  The script constructs the model and trains it
    for exactly 100 epochs, each a full pass of gradient-descent steps
    over the training loader, printing as it goes; then [evaluate_model]
    is handed the method [dataset.test_dataloader] instead of a loader, and
    the script ends in a TypeError: no test step has run, [test_loss] is
    untouched and no test loss is printed. *)
Theorem main_stops_before_evaluation (dataset : NamesDataModule) (g : generator) :
  cross_entropy_defined -> autograd_shapes -> neg_lr_sub ->
  Forall wf_batch (train_dataloader dataset tt) ->
  Forall wf_batch (val_dataloader dataset tt) ->
  exists w,
    main dataset g = (Raise TypeError, w) /\
    values (self w) =
      trained (train_dataloader dataset tt) 100 (values (NgramModuleVanilla_init g)) /\
    stdout w =
      training_lines (train_dataloader dataset tt) (val_dataloader dataset tt) 100
                     (seq 0 100) (values (NgramModuleVanilla_init g)) /\
    test_loss (self w) = MeanMetric.init.
Proof.
  intros Hce Hag Hlr Htrain Hval.
  destruct (init_wf g) as (Hwf & Hclear & Htest).
  destruct (train_model_wf Hce Hag Hlr (train_dataloader dataset tt)
              (val_dataloader dataset tt) 100 (seq 0 100)
              (Build_world (NgramModuleVanilla_init g) true []) Htrain Hval Hwf eq_refl Hclear)
    as (w & Hrun & _ & _ & _ & Htsl & Hv & Hout).
  exists w. unfold main, train_model.
  rewrite (bind_ok _ _ _ tt w Hrun), evaluate_model_method.
  rewrite length_seq in Hv. split_and!; try done. by rewrite Htsl.
Qed.

(** C6.  In [train_model], started on a model whose two running means are
    clear, every epoch [k] begins with both means clear, prints the mean
    of the training losses of its own steps and the mean of its own
    validation losses, and ends with both means reset; the loop goes on
    from there with the epochs that remain. *)
Theorem train_model_resets_metrics_every_epoch
        (train val : list batch) (epochs k : nat) (w : world) :
  cross_entropy_defined -> autograd_shapes -> neg_lr_sub ->
  Forall wf_batch train -> Forall wf_batch val ->
  wf_model (self w) -> grad_enabled w = true -> metrics_clear (self w) ->
  k < epochs ->
  exists wk wk',
    for_each (seq 0 k) (epoch_body (PyDataLoader train) (PyDataLoader val) epochs) w
      = (Ok tt, wk) /\
    metrics_clear (self wk) /\
    epoch_body (PyDataLoader train) (PyDataLoader val) epochs k wk = (Ok tt, wk') /\
    stdout wk' = stdout wk ++ epoch_lines train val epochs k (values (self wk)) /\
    metrics_clear (self wk') /\
    train_model (PyDataLoader train) (PyDataLoader val) epochs w =
      for_each (seq (S k) (epochs - S k))
               (epoch_body (PyDataLoader train) (PyDataLoader val) epochs) wk'.
Proof.
  intros Hce Hag Hlr Htrain Hval Hwf Hge Hclear Hk.
  destruct (train_model_wf Hce Hag Hlr train val epochs (seq 0 k) w
              Htrain Hval Hwf Hge Hclear)
    as (wk & Hrun & Hwfk & Hgek & Hcleark & _).
  destruct (epoch_body_wf Hce Hag Hlr train val epochs k wk Htrain Hval Hwfk Hgek Hcleark)
    as (wk' & Hrun' & _ & _ & Hclear' & _ & _ & Hout').
  exists wk, wk'. split_and!; try done.
  unfold train_model.
  replace (seq 0 epochs) with (seq 0 k ++ k :: seq (S k) (epochs - S k)).
  - rewrite for_each_app, (bind_ok _ _ w tt wk Hrun). simpl for_each.
    by rewrite (bind_ok _ _ wk tt wk' Hrun').
  - remember (epochs - S k) as r eqn:Hr.
    replace epochs with (k + S r) by lia. by rewrite seq_app.
Qed.
End Claims.

(** ** The real-number interface meets what is assumed of torch *)

Module IdealFacts.
Import Ideal.

Lemma torch_neg_lr_sub : @neg_lr_sub torch.
Proof. intros a g. simpl. lra. Qed.

Lemma Forall2_imap_l {A B} (P : B -> A -> Prop) (F : nat -> A -> B) (l : list A) :
  (forall k t, P (F k t) t) -> Forall2 P (imap F l) l.
Proof.
  revert F. induction l as [|t l IH]; intros F HF; simpl; constructor.
  - apply HF.
  - apply IH. intros k t'. apply HF.
Qed.

Lemma torch_autograd_shapes : @autograd_shapes torch.
Proof.
  intros f vals. simpl. unfold R_autograd. apply Forall2_imap_l.
  intros k t. simpl. by rewrite length_imap.
Qed.

Lemma torch_cross_entropy_defined : @cross_entropy_defined torch.
Proof.
  intros logits target n c Hn [Hl _] [Ht _] Hy.
  change (exists l, R_cross_entropy logits target = Ok l). unfold R_cross_entropy.
  simpl in Hl, Ht, Hy.
  rewrite Hl, Ht, Nat.eqb_refl.
  replace (forallb _ (storage target)) with true; [eauto|].
  symmetry. apply forallb_forall. intros y Hin.
  rewrite Forall_forall in Hy. specialize (Hy y). 
  apply list_elem_of_In in Hin. specialize (Hy Hin).
  apply orb_true_iff. left. apply andb_true_iff. split; [apply Z.leb_le | apply Z.ltb_lt]; lia.
Qed.
End IdealFacts.

(** ** More of the forward pass, the steps and the loops *)

Section ForwardMore.
Context `{Torch}.
Local Arguments rows_of : simpl never.
Local Arguments vecmat : simpl never.
Local Arguments numel : simpl never.
Local Arguments forward_on : simpl never.

Lemma forward_reads (w : world) :
  wf_model (self w) ->
  exists e w1 b1 w2 b2,
    values (self w) = [e; w1; b1; w2; b2] /\
    has_shape e [27; 2] /\ has_shape w1 [6; 100] /\ has_shape b1 [100] /\
    has_shape w2 [100; 27] /\ has_shape b2 [27] /\
    forall x, forward x w = (forward_on e w1 b1 w2 b2 x, w).
Proof.
  intros Hwf. destruct w as [m ge out]. simpl in *.
  destruct (wf_model_inv m Hwf) as (e & w1 & b1 & w2 & b2 & Hm & He & Hw1 & Hb1 & Hw2 & Hb2).
  exists e, w1, b1, w2, b2. rewrite Hm. split_and!; try done.
Qed.

Lemma numel_app (a b : list nat) : numel (a ++ b) = numel a * numel b.
Proof.
  unfold numel. induction a as [|n a IH]; simpl; [lia|]. rewrite IH. lia.
Qed.

Lemma select_row_in_range {A} (n d : nat) (st : list A) (i : Z) :
  (- Z.of_nat n <= i < Z.of_nat n)%Z ->
  exists k, k < n /\ select_row n d st i = Ok (take d (drop (k * d) st)).
Proof.
  intros Hi. unfold select_row.
  replace ((- Z.of_nat n <=? i) && (i <? Z.of_nat n))%Z with true
    by (symmetry; apply andb_true_iff; split; [apply Z.leb_le | apply Z.ltb_lt]; lia).
  eexists. split; [|reflexivity]. destruct (Z.ltb_spec i 0); lia.
Qed.

Lemma select_row_out_of_range {A} (n d : nat) (st : list A) (i : Z) :
  ~ (- Z.of_nat n <= i < Z.of_nat n)%Z -> select_row n d st i = Raise IndexError.
Proof.
  intros Hi. unfold select_row.
  destruct (Z.leb_spec (- Z.of_nat n) i), (Z.ltb_spec i (Z.of_nat n)); simpl; try done. lia.
Qed.

Lemma select_row_cases {A} (n d : nat) (st : list A) (i : Z) :
  (exists s, select_row n d st i = Ok s) \/ select_row n d st i = Raise IndexError.
Proof. unfold select_row. destruct (_ && _); eauto. Qed.

Lemma result_mapM_Forall {A B} (f : A -> result B) (P : B -> Prop) (l : list A) :
  Forall (fun a => exists b, f a = Ok b /\ P b) l ->
  exists bs, result_mapM f l = Ok bs /\ length bs = length l /\ Forall P bs.
Proof.
  induction 1 as [|a l (b & Hb & HP) _ (bs & Hbs & Hlen & HPs)]; simpl.
  - exists []. done.
  - exists (b :: bs). rewrite Hb, Hbs. simpl. split_and!; [done|by rewrite Hlen|by constructor].
Qed.

Lemma result_mapM_index_error {A} (n d : nat) (st : list A) (l : list Z) :
  Exists (fun i => ~ (- Z.of_nat n <= i < Z.of_nat n)%Z) l ->
  result_mapM (select_row n d st) l = Raise IndexError.
Proof.
  induction l as [|i l IH]; intros Hex; [by apply Exists_nil in Hex|]. simpl.
  destruct (decide (- Z.of_nat n <= i < Z.of_nat n)%Z) as [Hi|Hi].
  - destruct (select_row_in_range n d st i Hi) as (k & _ & ->). simpl.
    apply Exists_cons in Hex as [Hex|Hex]; [done|]. by rewrite IH.
  - by rewrite select_row_out_of_range.
Qed.

Lemma index_in_range (e : tensor scalar) (idx : tensor Z) :
  has_shape e [27; 2] -> Forall (fun i => -27 <= i < 27)%Z (storage idx) ->
  exists slices,
    index e idx = Ok (Tensor (shape idx ++ [2]) (concat slices)) /\
    length slices = length (storage idx) /\
    Forall (fun s => length s = 2) slices.
Proof.
  intros [Hsh Hlen] Hidx. unfold index. rewrite Hsh.
  destruct (result_mapM_Forall (select_row 27 (numel [2]) (storage e))
              (fun s => length s = 2) (storage idx)) as (slices & -> & Hl & Hs).
  { eapply Forall_impl; [exact Hidx|]. intros i Hi.
    assert (- Z.of_nat 27 <= i < Z.of_nat 27)%Z as Hi'. { cbv beta in Hi. change (Z.of_nat 27) with 27%Z. lia. }
    destruct (select_row_in_range 27 (numel [2]) (storage e) i Hi') as (k & Hk & ->).
    eexists. split; [reflexivity|].
    change (numel [2]) with 2. change (numel [27; 2]) with 54 in Hlen.
    rewrite length_take, length_drop, Hlen. lia. }
  exists slices. done.
Qed.

(** The layers after the reshape, on [n] rows of width 6. *)
Lemma layers_rows (w1 b1 w2 b2 : tensor scalar) (n : nat) (st : list scalar) :
  has_shape w1 [6; 100] -> has_shape b1 [100] ->
  has_shape w2 [100; 27] -> has_shape b2 [27] ->
  exists t,
    (a1 <-- matmul (Tensor [n; 6] st) w1 ;;
     z1 <-- add_bias a1 b1 ;;
     a2 <-- matmul (tanh z1) w2 ;;
     add_bias a2 b2) = Ok t /\ has_shape t [n; 27].
Proof.
  intros [Hw1 _] [Hb1 Lb1] [Hw2 _] [Hb2 Lb2].
  rewrite (matmul_flat n 6 100 _ w1 Hw1). simpl result_bind.
  rewrite (add_bias_rows n 100 _ b1);
    [|by rewrite length_map, length_rows_of
     |apply Forall_map, Forall_forall; intros u _; apply length_vecmat
     |done].
  simpl result_bind. unfold tanh. simpl shape. simpl storage. rewrite concat_map.
  rewrite (matmul_rows n 100 27 _ w2);
    [|by rewrite !length_map, length_rows_of
     |rewrite !Forall_map; apply Forall_forall; intros u _; unfold compose; cbv beta;
      rewrite length_map, length_zip_with, length_vecmat, Lb1; unfold numel; cbn; lia
     |done].
  simpl result_bind.
  rewrite (add_bias_rows n 27 _ b2);
    [|by rewrite !length_map, length_rows_of
     |apply Forall_map, Forall_forall; intros u _; apply length_vecmat
     |done].
  eexists. split; [reflexivity|]. split; [done|]. simpl storage.
  rewrite (length_concat_uniform 27).
  - rewrite !length_map, length_rows_of. unfold numel. simpl. lia.
  - rewrite !Forall_map. apply Forall_forall. intros u _. unfold compose. cbv beta.
    rewrite length_zip_with, length_vecmat, Lb2. unfold numel. cbn. lia.
Qed.
End ForwardMore.

Section ForwardTheorems.
Context `{Torch}.
Local Arguments rows_of : simpl never.
Local Arguments vecmat : simpl never.
Local Arguments numel : simpl never.
Local Arguments forward_on : simpl never.
Local Arguments pipeline_logits : simpl never.

Lemma rows_of_app {A} (n1 n2 m : nat) (l1 l2 : list A) :
  length l1 = n1 * m ->
  rows_of (n1 + n2) m (l1 ++ l2) = rows_of n1 m l1 ++ rows_of n2 m l2.
Proof.
  revert l1. induction n1 as [|n1 IH]; intros l1 Hl; simpl.
  - destruct l1; [done|simpl in Hl; lia].
  - unfold rows_of; fold (@rows_of A). simpl. f_equal.
    + rewrite take_app_le by lia. done.
    + rewrite drop_app_le by lia. apply IH. rewrite length_drop. lia.
Qed.

Lemma wf_batch_cat (x y : batch) : wf_batch x -> wf_batch y -> wf_batch (batch_cat x y).
Proof.
  intros (Hx & [_ Lx] & [_ Llx] & Hix & Hyx) (Hy & [_ Ly] & [_ Lly] & Hiy & Hyy).
  unfold numel in *. simpl in *.
  unfold wf_batch, batch_cat, has_shape, numel. simpl. rewrite !length_app.
  split_and!; try done; try lia; by apply Forall_app.
Qed.

Lemma contexts_cat (x y : batch) :
  wf_batch x -> contexts (batch_cat x y) = contexts x ++ contexts y.
Proof.
  intros (_ & [_ Lx] & _). unfold contexts, batch_cat. simpl. rewrite length_app.
  apply rows_of_app. unfold numel in Lx. simpl in Lx. lia.
Qed.

Lemma select_row_from_the_end {A} (d : nat) (st : list A) (i : Z) :
  (0 <= i < 27)%Z -> select_row 27 d st (i - 27) = select_row 27 d st i.
Proof.
  intros Hi. unfold select_row. change (Z.of_nat 27) with 27%Z.
  repeat match goal with
         | |- context [(?a <=? ?b)%Z] => destruct (Z.leb_spec a b); try lia
         | |- context [(?a <? ?b)%Z] => destruct (Z.ltb_spec a b); try lia
         end.
  simpl. replace (i - 27 + 27)%Z with i by lia. done.
Qed.

Lemma result_mapM_map_ext {A B C} (f g : A -> result B) (h : C -> A) (l : list C) :
  Forall (fun c => f (h c) = g (h c) /\ True) l ->
  result_mapM f (map h l) = result_mapM g (map h l).
Proof.
  induction 1 as [|c l [Hc _] _ IH]; simpl; [done|]. by rewrite Hc, IH.
Qed.

(** X1.  [forward] never looks at how the characters of a batch are laid
    out, only at how many there are: with characters in range, a batch of
    no character, or of a number of characters that is not a multiple of
    3, makes the reshape fail with a RuntimeError and the model is left
    as it was; a batch of [3 n] characters, [n >= 1], gives [n] rows of
    27 logits. *)
Theorem forward_rows (w : world) (x : batch) :
  wf_model (self w) ->
  length (storage (ngram x)) = numel (shape (ngram x)) ->
  Forall (fun i => -27 <= i < 27)%Z (storage (ngram x)) ->
  let c := length (storage (ngram x)) in
  (c = 0 \/ c mod 3 <> 0 -> forward x w = (Raise RuntimeError, w)) /\
  (0 < c -> c mod 3 = 0 ->
   exists t, forward x w = (Ok t, w) /\ has_shape t [c / 3; 27]).
Proof.
  intros Hwf Hlen Hidx c.
  destruct (forward_reads w Hwf) as (e & w1 & b1 & w2 & b2 & _ & He & Hw1 & Hb1 & Hw2 & Hb2 & Hfw).
  destruct (index_in_range e (ngram x) He Hidx) as (slices & Hindex & _ & _).
  assert (numel (shape (ngram x) ++ [2]) = c * 2) as Hn.
  { rewrite numel_app, <- Hlen. reflexivity. }
  assert ((c * 2) mod 6 = (c mod 3) * 2) as Hmod.
  { change 6 with (3 * 2). apply Nat.Div0.mul_mod_distr_r. }
  split.
  - intros Hbad. rewrite Hfw. f_equal. unfold forward_on. rewrite Hindex. simpl result_bind.
    unfold view_rows. simpl shape. rewrite Hn, Hmod.
    destruct (Nat.eqb_spec (c * 2) 0) as [|Hc]; [done|].
    change (6 =? 0) with false. cbn [orb].
    destruct (Nat.eqb_spec (c mod 3 * 2) 0) as [Hz|]; [|done].
    destruct Hbad; lia.
  - intros Hpos Hdiv.
    destruct (layers_rows w1 b1 w2 b2 (c / 3) (concat slices) Hw1 Hb1 Hw2 Hb2) as (t & Ht & Hs).
    exists t. split; [|done]. rewrite Hfw. f_equal. unfold forward_on.
    rewrite Hindex. simpl result_bind.
    unfold view_rows. simpl shape. rewrite Hn, Hmod, Hdiv.
    replace (c * 2 =? 0) with false by (symmetry; apply Nat.eqb_neq; lia).
    change (6 =? 0) with false. cbn [orb]. change (0 * 2 =? 0) with true. cbv iota.
    replace (c * 2 / 6) with (c / 3)
      by (change 6 with (3 * 2); symmetry; apply Nat.Div0.div_mul_cancel_r; lia).
    exact Ht.
Qed.

(** X2.  A character outside [-27, 27) anywhere in the contexts is an
    IndexError at the embedding lookup: [forward], [model_step] and the
    three steps raise it, and none of them changes the model, the
    metrics or the console. *)
Theorem out_of_range_character (w : world) (x : batch) :
  wf_model (self w) ->
  Exists (fun i => ~ (-27 <= i < 27)%Z) (storage (ngram x)) ->
  forward x w = (Raise IndexError, w) /\
  model_step x w = (Raise IndexError, w) /\
  training_step x w = (Raise IndexError, w) /\
  validation_step x w = (Raise IndexError, w) /\
  test_step x w = (Raise IndexError, w).
Proof.
  intros Hwf Hex.
  destruct (forward_reads w Hwf) as (e & w1 & b1 & w2 & b2 & _ & [He _] & _ & _ & _ & _ & Hfw).
  assert (forward x w = (Raise IndexError, w)) as Hf.
  { rewrite Hfw. f_equal. unfold forward_on, index. rewrite He.
    by rewrite (result_mapM_index_error 27). }
  assert (model_step x w = (Raise IndexError, w)) as Hm.
  { unfold model_step. by rewrite (bind_raise _ _ w IndexError w Hf). }
  split_and!; try done.
  - unfold training_step. by rewrite (bind_raise _ _ w IndexError w Hm).
  - unfold validation_step. by rewrite (bind_raise _ _ w IndexError w Hm).
  - unfold test_step. by rewrite (bind_raise _ _ w IndexError w Hm).
Qed.

(** X3.  The embedding lookup counts a negative character from the end of
    the table: replacing every character [i] of a batch by [i - 27] does
    not change what [forward] returns. *)
Theorem characters_from_the_end (w : world) (x : batch) :
  wf_model (self w) ->
  Forall (fun i => 0 <= i < 27)%Z (storage (ngram x)) ->
  forward (from_the_end x) w = forward x w.
Proof.
  intros Hwf Hidx.
  destruct (forward_reads w Hwf) as (e & w1 & b1 & w2 & b2 & _ & [He _] & _ & _ & _ & _ & Hfw).
  rewrite !Hfw. f_equal. unfold forward_on.
  replace (index e (ngram (from_the_end x))) with (index e (ngram x)); [done|].
  unfold index, from_the_end. rewrite He. simpl.
  replace (result_mapM (select_row 27 (numel [2]) (storage e))
             (map (fun i => (i - 27)%Z) (storage (ngram x))))
    with (result_mapM (select_row 27 (numel [2]) (storage e)) (storage (ngram x))); [done|].
  induction Hidx as [|i l Hi _ IH]; simpl; [done|].
  by rewrite select_row_from_the_end, IH.
Qed.

(** X4.  The examples of a batch do not mix: the logits of two batches put
    one after the other are the logits of the first followed by the
    logits of the second. *)
Theorem forward_of_concatenated_batches (w : world) (x y : batch) :
  wf_model (self w) -> wf_batch x -> wf_batch y ->
  exists tx ty,
    forward x w = (Ok tx, w) /\ forward y w = (Ok ty, w) /\
    forward (batch_cat x y) w =
      (Ok (Tensor [length (storage (label x)) + length (storage (label y)); 27]
                  (storage tx ++ storage ty)), w).
Proof.
  intros Hwf Hx Hy.
  destruct (forward_reads w Hwf) as (e & w1 & b1 & w2 & b2 & _ & He & Hw1 & Hb1 & Hw2 & Hb2 & Hfw).
  exists (pipeline_logits e w1 b1 w2 b2 x), (pipeline_logits e w1 b1 w2 b2 y).
  rewrite !Hfw, !forward_on_pipeline by (done || by apply wf_batch_cat).
  split_and!; try done. do 2 f_equal.
  unfold pipeline_logits. rewrite contexts_cat by done.
  simpl. by rewrite length_app, map_app, concat_app.
Qed.
End ForwardTheorems.

Section StepTheorems.
Context `{Torch}.
Local Arguments loss_of : simpl never.
Local Arguments sgd_step : simpl never.
Local Arguments training_step : simpl never.
Local Arguments MeanMetric.compute : simpl never.
Local Arguments updates : simpl never.
Local Arguments forward_on : simpl never.

Lemma forward_world x w : (forward x w).2 = w.
Proof.
  unfold forward, bind, lift, get_self.
  repeat (match goal with |- context [deref ?m ?r] => destruct (deref m r) end; simpl; try done).
Qed.

Lemma test_pass (w : world) (bs : list batch) :
  cross_entropy_defined -> wf_model (self w) -> Forall wf_batch bs ->
  for_each bs test_step w =
  (Ok tt, set_self (set_test_loss (updates (map (batch_loss (values (self w))) bs)
                                           (test_loss (self w))) (self w)) w).
Proof.
  intros Hce Hwf Hbs. revert w Hwf. induction Hbs as [|x bs Hx _ IH]; intros w Hwf.
  - destruct w as [[] ? ?]. done.
  - simpl for_each. unfold bind. rewrite test_step_wf by done.
    rewrite IH by (destruct w as [[] ? ?]; done).
    destruct w as [[] ? ?]. done.
Qed.

Lemma length_step_lines epoch epochs n s ls :
  length (step_lines epoch epochs n s ls) = length ls.
Proof. revert s. induction ls as [|l ls IH]; intros s; simpl; [done|]. by rewrite IH. Qed.

Lemma length_pass_losses vals bs : length (pass_losses vals bs) = length bs.
Proof. revert vals. induction bs as [|x bs IH]; intros vals; simpl; [done|]. by rewrite IH. Qed.

Lemma length_training_lines train val epochs es vals :
  length (training_lines train val epochs es vals) = length es * (length train + 2).
Proof.
  revert vals. induction es as [|epoch es IH]; intros vals; simpl; [done|].
  unfold epoch_lines. rewrite !length_app, IH, length_step_lines, length_pass_losses.
  simpl. lia.
Qed.

(** X5.  [forward] and [model_step] only read: whatever the batch and the
    state, and whether they return or raise, they leave the parameters,
    the three metrics, the gradient mode and the console as they were. *)
Theorem model_step_only_reads (x : batch) (w : world) :
  (forward x w).2 = w /\ (model_step x w).2 = w.
Proof. split; [apply forward_world | apply model_step_world]. Qed.

(** X6.  A step whose [model_step] raises re-raises the same exception
    before it has changed anything: no parameter is updated, no metric is
    updated. *)
Theorem failed_step_changes_nothing (x : batch) (w : world) (e : exn) :
  (model_step x w).1 = Raise e ->
  training_step x w = (Raise e, w) /\
  validation_step x w = (Raise e, w) /\
  test_step x w = (Raise e, w).
Proof.
  intros Hr. pose proof (model_step_world x w) as Hw.
  destruct (model_step x w) as [r w1] eqn:Hm. simpl in *. subst.
  unfold training_step, validation_step, test_step.
  by rewrite !(bind_raise _ _ w e w Hm).
Qed.

(** X7.  [test_step] touches neither the five parameters nor [train_loss]
    and [val_loss] (nor the gradient mode or the console): when
    [model_step] yields a loss the only change is that [test_loss] has
    been updated with it, and when [model_step] raises nothing has
    changed. *)
Theorem test_step_frame (x : batch) (w : world) :
  same_parameters w (test_step x w).2 /\
  train_loss (self (test_step x w).2) = train_loss (self w) /\
  val_loss (self (test_step x w).2) = val_loss (self w) /\
  grad_enabled (test_step x w).2 = grad_enabled w /\
  stdout (test_step x w).2 = stdout w /\
  match model_step x w with
  | (Ok loss, _) =>
      (test_step x w).1 = Ok tt /\
      test_loss (self (test_step x w).2) =
        MeanMetric.update (item loss) (test_loss (self w))
  | (Raise e, _) =>
      test_step x w = (Raise e, w)
  end.
Proof.
  unfold test_step, bind. pose proof (model_step_world x w) as Hms.
  destruct (model_step x w) as [[l|e] w1]; simpl in *; subst w1; done.
Qed.

(** X8.  With gradient recording off (inside [torch.no_grad()]) the loss
    has no graph: [training_step] raises a RuntimeError at
    [loss.backward()], and no parameter and no metric has changed. *)
Theorem training_step_without_recording (x : batch) (w : world) :
  cross_entropy_defined -> wf_model (self w) -> wf_batch x ->
  grad_enabled w = false ->
  training_step x w = (Raise RuntimeError, w).
Proof.
  intros Hce Hwf Hx Hge. destruct (model_step_wf w x Hce Hwf Hx) as (l & _ & Hstep).
  rewrite Hge in Hstep. unfold training_step.
  rewrite (bind_ok _ _ w _ w Hstep). unfold backward. simpl grad_fn.
  by rewrite (bind_raise _ _ w RuntimeError w).
Qed.

(** X9.  [training_step] can be chained: on a well-formed model and batch
    it returns the loss of the batch at the values before the update,
    records exactly that loss in [train_loss], leaves [val_loss],
    [test_loss], the gradient mode and the console alone, and leaves a
    model that is well formed again (same shapes, no pending gradient). *)
Theorem training_step_keeps_the_model_well_formed (x : batch) (w : world) :
  cross_entropy_defined -> autograd_shapes -> neg_lr_sub ->
  wf_model (self w) -> grad_enabled w = true -> wf_batch x ->
  exists w',
    training_step x w = (Ok (Build_loss (batch_loss (values (self w)) x) (Some x)), w') /\
    wf_model (self w') /\
    train_loss (self w') =
      MeanMetric.update (batch_loss (values (self w)) x) (train_loss (self w)) /\
    val_loss (self w') = val_loss (self w) /\
    test_loss (self w') = test_loss (self w) /\
    grad_enabled w' = true /\
    stdout w' = stdout w.
Proof.
  intros Hce Hag Hlr Hwf Hge Hx.
  destruct (training_step_wf w x Hce Hag Hlr Hwf Hge Hx)
    as (l & w' & Hl & Hstep & Hwf' & _ & Htl & Hvl & Htsl & Hge' & Hout).
  exists w'. unfold batch_loss. rewrite Hl. split_and!; done.
Qed.

(** X10.  Handed a loader, [evaluate_model] runs to its end: the model's
    parameters are as before, the gradient mode is back, one line is
    printed, the running mean of [test_loss] after the losses of the test
    batches at the current values, and [test_loss] is reset.  When
    [test_loss] was clear on entry the printed value is the mean of
    exactly these losses. *)
Theorem evaluate_model_on_a_loader (bs : list batch) (w : world) :
  cross_entropy_defined -> wf_model (self w) -> Forall wf_batch bs ->
  evaluate_model (PyDataLoader bs) w =
    (Ok tt,
     Build_world (set_test_loss MeanMetric.init (self w)) (grad_enabled w)
       (stdout w ++
        [TestLossLine
           (MeanMetric.compute
              (updates (map (batch_loss (values (self w))) bs) (test_loss (self w))))])) /\
  (test_loss (self w) = MeanMetric.init ->
   MeanMetric.compute (updates (map (batch_loss (values (self w))) bs) (test_loss (self w)))
   = MeanMetric.mean (map (batch_loss (values (self w))) bs)).
Proof.
  intros Hce Hwf Hbs. split.
  - pose proof (test_pass (set_grad_enabled false w) bs Hce Hwf Hbs) as Hrun.
    unfold evaluate_model, with_no_grad. simpl iter.
    unfold bind at 1. unfold bind at 1. unfold lift at 1.
    rewrite Hrun. destruct w as [[] ? ?]. reflexivity.
  - intros ->. apply compute_updates.
Qed.

Section WithLaws.
Hypothesis Hce : cross_entropy_defined.
Hypothesis Hag : autograd_shapes.
Hypothesis Hlr : neg_lr_sub.

(** X11.  On well-formed batches [train_model] runs all its epochs: it
    returns normally, the parameters are those of [epochs] passes of
    gradient descent over the training batches, the model is well formed
    and both training metrics are clear again, [test_loss] is untouched,
    and every epoch has printed one line per training batch and two
    more. *)
Theorem train_model_runs_every_epoch (train val : list batch) (epochs : nat) (w : world) :
  Forall wf_batch train -> Forall wf_batch val ->
  wf_model (self w) -> grad_enabled w = true -> metrics_clear (self w) ->
  exists w',
    train_model (PyDataLoader train) (PyDataLoader val) epochs w = (Ok tt, w') /\
    wf_model (self w') /\ grad_enabled w' = true /\ metrics_clear (self w') /\
    test_loss (self w') = test_loss (self w) /\
    values (self w') = trained train epochs (values (self w)) /\
    length (stdout w') = length (stdout w) + epochs * (length train + 2).
Proof using Hce Hag Hlr.
  intros Htrain Hval Hwf Hge Hclear.
  destruct (train_model_wf Hce Hag Hlr train val epochs (seq 0 epochs) w
              Htrain Hval Hwf Hge Hclear)
    as (w' & Hrun & Hwf' & Hge' & Hclear' & Htsl & Hv & Hout).
  exists w'. rewrite length_seq in Hv.
  split_and!; try done.
  rewrite Hout, length_app, length_training_lines, length_seq. done.
Qed.

(** X12.  [train_model] finds out late that a loader is not iterable.  A
    method as training loader is a TypeError before anything has
    happened; a method as validation loader is a TypeError only after
    the training steps of the first epoch, whose parameter updates,
    printed lines and accumulated [train_loss] stay. *)
Theorem train_model_on_a_method (train : list batch) (call : unit -> DataLoader)
        (val_loader : pyobj) (epochs : nat) (w : world) :
  Forall wf_batch train -> wf_model (self w) -> grad_enabled w = true ->
  train_model (PyMethod call) val_loader (S epochs) w = (Raise TypeError, w) /\
  exists w',
    train_model (PyDataLoader train) (PyMethod call) (S epochs) w = (Raise TypeError, w') /\
    values (self w') = pass_values (values (self w)) train /\
    train_loss (self w') =
      updates (pass_losses (values (self w)) train) (train_loss (self w)) /\
    stdout w' =
      stdout w ++ step_lines 0 (S epochs) (length train) 0 (pass_losses (values (self w)) train).
Proof using Hce Hag Hlr.
  intros Htrain Hwf Hge. split; [done|].
  destruct (training_pass Hce Hag Hlr 0 (S epochs) (length train) (PyDataLoader train) train
              eq_refl Htrain 0 w Hwf Hge)
    as (w1 & Hrun & _ & Hv1 & Htl1 & _ & _ & _ & Hout1).
  exists w1. split; [|done].
  unfold train_model. simpl seq. simpl for_each.
  apply bind_raise. unfold epoch_body. simpl iter. unfold enumerate.
  rewrite (bind_ok _ _ w train w eq_refl).
  rewrite (bind_ok _ _ w tt w1 Hrun). done.
Qed.
End WithLaws.
End StepTheorems.

(** ** The operations on small inputs *)

Example index_from_the_end :
  index (Tensor [3; 2] [1; 2; 3; 4; 5; 6]%R) (Tensor [2] [-1; 0]%Z) =
  Ok (Tensor [2; 2] [5; 6; 1; 2]%R).
Proof. reflexivity. Qed.

Example index_out_of_range :
  index (Tensor [27; 2] (repeat 0%R 54)) (Tensor [1] [27]%Z) = Raise IndexError.
Proof. reflexivity. Qed.

Example view_rows_of_two_contexts :
  view_rows 6 (Tensor [2; 3; 2] (repeat 0%R 12)) = Ok (Tensor [2; 6] (repeat 0%R 12)).
Proof. reflexivity. Qed.

Example view_rows_without_elements :
  view_rows 6 (Tensor [0; 3; 2] (@nil R)) = Raise RuntimeError.
Proof. reflexivity. Qed.

Example matmul_by_identity :
  @matmul Ideal.torch (Tensor [1; 2] [3; 4]%R) (Tensor [2; 2] [1; 0; 0; 1]%R) =
  Ok (Tensor [1; 2] [0 + 3 * 1 + 4 * 0; 0 + 3 * 0 + 4 * 1]%R).
Proof. reflexivity. Qed.

Example matmul_mismatch :
  @matmul Ideal.torch (Tensor [1; 2] [3; 4]%R) (Tensor [3; 1] [1; 0; 0]%R) =
  Raise RuntimeError.
Proof. reflexivity. Qed.

Example mean_of_three :
  @MeanMetric.compute Ideal.torch
    (@updates Ideal.torch [1; 2; 6]%R (@MeanMetric.init Ideal.torch)) = 3%R.
Proof. unfold MeanMetric.compute, updates. simpl. field. Qed.

Example evaluate_model_on_a_method :
  (@evaluate_model Ideal.torch (PyMethod (test_dataloader Ideal.names)) Ideal.w0).1 =
  Raise TypeError.
Proof. reflexivity. Qed.

(** ** The theorems at work on the real-number interface *)

#[local] Existing Instance Ideal.torch.

Lemma wf_batch_x0 : wf_batch Ideal.x0.
Proof.
  unfold wf_batch, has_shape. simpl. split_and!; try done; try lia.
  - repeat (constructor; [lia|]). constructor.
  - repeat (constructor; [lia|]). constructor.
Defined.

Lemma wf_batch_x1 : wf_batch Ideal.x1.
Proof.
  unfold wf_batch, has_shape. simpl. split_and!; try done; try lia.
  - repeat (constructor; [lia|]). constructor.
  - repeat (constructor; [lia|]). constructor.
Defined.

Lemma values_w0 :
  values (self Ideal.w0) =
  [Ideal.value 0; Ideal.value 1; Ideal.value 2; Ideal.value 3; Ideal.value 4].
Proof.
  destruct (wf_model_inv _ (proj1 (@init_wf Ideal.torch 0%Z))) as (e & w1 & b1 & w2 & b2 & Hm & _).
  unfold Ideal.value, Ideal.w0. cbn [self]. rewrite Hm. reflexivity.
Qed.

Lemma training_step_gradient_descent_witness :
  exists loss w',
    training_step Ideal.x0 Ideal.w0 = (Ok loss, w') /\
    loss_of Ideal.x0 (values (self Ideal.w0)) = Ok (item loss) /\
    values (self w') =
      zip_with (fun p g => tsub p (scale s_lr g))
               (values (self Ideal.w0))
               (autograd (loss_of Ideal.x0) (values (self Ideal.w0))) /\
    length (values (self w')) = 5 /\
    length (store (self w')) = 5 /\
    Forall (fun p => grad p = None) (store (self w')).
Proof.
  apply (@training_step_gradient_descent Ideal.torch Ideal.w0 Ideal.x0
           IdealFacts.torch_cross_entropy_defined IdealFacts.torch_autograd_shapes
           IdealFacts.torch_neg_lr_sub (proj1 (init_wf _)) eq_refl wf_batch_x0).
Defined.

Lemma model_step_cross_entropy_of_pipeline_witness :
  Forall (fun ctx => length (concatenated (Ideal.value 0) ctx) = 6) (contexts Ideal.x0) /\
  exists l,
    cross_entropy (pipeline_logits (Ideal.value 0) (Ideal.value 1) (Ideal.value 2)
                                   (Ideal.value 3) (Ideal.value 4) Ideal.x0)
                  (label Ideal.x0) = Ok l /\
    model_step Ideal.x0 Ideal.w0 = (Ok (Build_loss l (Some Ideal.x0)), Ideal.w0).
Proof.
  apply (@model_step_cross_entropy_of_pipeline Ideal.torch Ideal.w0 Ideal.x0 _ _ _ _ _
           IdealFacts.torch_cross_entropy_defined (proj1 (init_wf _)) wf_batch_x0 values_w0).
Defined.

Lemma main_stops_before_evaluation_witness :
  exists w,
    main Ideal.names 0%Z = (Raise TypeError, w) /\
    values (self w) = trained [Ideal.x0] 100 (values (NgramModuleVanilla_init 0%Z)) /\
    stdout w = training_lines [Ideal.x0] [Ideal.x1] 100 (seq 0 100)
                              (values (NgramModuleVanilla_init 0%Z)) /\
    test_loss (self w) = MeanMetric.init.
Proof.
  apply (@main_stops_before_evaluation Ideal.torch Ideal.names 0%Z
           IdealFacts.torch_cross_entropy_defined IdealFacts.torch_autograd_shapes
           IdealFacts.torch_neg_lr_sub).
  - exact (Forall_cons_2 _ _ _ wf_batch_x0 (Forall_nil_2 _)).
  - exact (Forall_cons_2 _ _ _ wf_batch_x1 (Forall_nil_2 _)).
Defined.

Lemma train_model_resets_metrics_every_epoch_witness :
  exists wk wk',
    for_each (seq 0 1) (epoch_body (PyDataLoader [Ideal.x0]) (PyDataLoader [Ideal.x1]) 3)
             Ideal.w0 = (Ok tt, wk) /\
    metrics_clear (self wk) /\
    epoch_body (PyDataLoader [Ideal.x0]) (PyDataLoader [Ideal.x1]) 3 1 wk = (Ok tt, wk') /\
    stdout wk' = stdout wk ++ epoch_lines [Ideal.x0] [Ideal.x1] 3 1 (values (self wk)) /\
    metrics_clear (self wk') /\
    train_model (PyDataLoader [Ideal.x0]) (PyDataLoader [Ideal.x1]) 3 Ideal.w0 =
      for_each (seq 2 (3 - 2))
               (epoch_body (PyDataLoader [Ideal.x0]) (PyDataLoader [Ideal.x1]) 3) wk'.
Proof.
  apply (@train_model_resets_metrics_every_epoch Ideal.torch [Ideal.x0] [Ideal.x1] 3 1
           Ideal.w0 IdealFacts.torch_cross_entropy_defined IdealFacts.torch_autograd_shapes
           IdealFacts.torch_neg_lr_sub).
  - exact (Forall_cons_2 _ _ _ wf_batch_x0 (Forall_nil_2 _)).
  - exact (Forall_cons_2 _ _ _ wf_batch_x1 (Forall_nil_2 _)).
  - exact (proj1 (init_wf _)).
  - reflexivity.
  - exact (proj1 (proj2 (init_wf _))).
  - lia.
Defined.

(** ** More theorems at work on the real-number interface *)

Lemma model_step_bad_character :
  (model_step Inputs.bad_character Ideal.w0).1 = Raise IndexError.
Proof.
  destruct (forward_reads Ideal.w0 (proj1 (init_wf _)))
    as (e & w1 & b1 & w2 & b2 & _ & [He _] & _ & _ & _ & _ & Hfw).
  unfold model_step, bind. rewrite Hfw. unfold forward_on, index. rewrite He.
  reflexivity.
Qed.

Lemma forward_rows_witness :
  let c := length (storage (ngram Ideal.x0)) in
  (c = 0 \/ c mod 3 <> 0 -> forward Ideal.x0 Ideal.w0 = (Raise RuntimeError, Ideal.w0)) /\
  (0 < c -> c mod 3 = 0 ->
   exists t, forward Ideal.x0 Ideal.w0 = (Ok t, Ideal.w0) /\ has_shape t [c / 3; 27]).
Proof.
  apply (@forward_rows Ideal.torch Ideal.w0 Ideal.x0 (proj1 (init_wf _)) eq_refl).
  repeat (constructor; [lia|]). constructor.
Defined.

Lemma out_of_range_character_witness :
  forward Inputs.bad_character Ideal.w0 = (Raise IndexError, Ideal.w0) /\
  model_step Inputs.bad_character Ideal.w0 = (Raise IndexError, Ideal.w0) /\
  training_step Inputs.bad_character Ideal.w0 = (Raise IndexError, Ideal.w0) /\
  validation_step Inputs.bad_character Ideal.w0 = (Raise IndexError, Ideal.w0) /\
  test_step Inputs.bad_character Ideal.w0 = (Raise IndexError, Ideal.w0).
Proof.
  apply (@out_of_range_character Ideal.torch Ideal.w0 Inputs.bad_character
           (proj1 (init_wf _))).
  apply Exists_cons_tl, Exists_cons_hd. lia.
Defined.

Lemma characters_from_the_end_witness :
  forward (from_the_end Ideal.x0) Ideal.w0 = forward Ideal.x0 Ideal.w0.
Proof.
  apply (@characters_from_the_end Ideal.torch Ideal.w0 Ideal.x0 (proj1 (init_wf _))).
  repeat (constructor; [lia|]). constructor.
Defined.

Lemma forward_of_concatenated_batches_witness :
  exists tx ty,
    forward Ideal.x0 Ideal.w0 = (Ok tx, Ideal.w0) /\
    forward Ideal.x1 Ideal.w0 = (Ok ty, Ideal.w0) /\
    forward (batch_cat Ideal.x0 Ideal.x1) Ideal.w0 =
      (Ok (Tensor [length (storage (label Ideal.x0)) + length (storage (label Ideal.x1)); 27]
                  (storage tx ++ storage ty)), Ideal.w0).
Proof.
  apply (@forward_of_concatenated_batches Ideal.torch Ideal.w0 Ideal.x0 Ideal.x1
           (proj1 (init_wf _)) wf_batch_x0 wf_batch_x1).
Defined.

Lemma failed_step_changes_nothing_witness :
  training_step Inputs.bad_character Ideal.w0 = (Raise IndexError, Ideal.w0) /\
  validation_step Inputs.bad_character Ideal.w0 = (Raise IndexError, Ideal.w0) /\
  test_step Inputs.bad_character Ideal.w0 = (Raise IndexError, Ideal.w0).
Proof.
  apply (@failed_step_changes_nothing Ideal.torch Inputs.bad_character Ideal.w0 IndexError
           model_step_bad_character).
Defined.

Lemma training_step_without_recording_witness :
  training_step Ideal.x0 Inputs.w0_no_grad = (Raise RuntimeError, Inputs.w0_no_grad).
Proof.
  apply (@training_step_without_recording Ideal.torch Ideal.x0 Inputs.w0_no_grad
           IdealFacts.torch_cross_entropy_defined (proj1 (init_wf _)) wf_batch_x0 eq_refl).
Defined.

Lemma training_step_keeps_the_model_well_formed_witness :
  exists w',
    training_step Ideal.x0 Ideal.w0 =
      (Ok (Build_loss (batch_loss (values (self Ideal.w0)) Ideal.x0) (Some Ideal.x0)), w') /\
    wf_model (self w') /\
    train_loss (self w') =
      MeanMetric.update (batch_loss (values (self Ideal.w0)) Ideal.x0)
                        (train_loss (self Ideal.w0)) /\
    val_loss (self w') = val_loss (self Ideal.w0) /\
    test_loss (self w') = test_loss (self Ideal.w0) /\
    grad_enabled w' = true /\
    stdout w' = stdout Ideal.w0.
Proof.
  apply (@training_step_keeps_the_model_well_formed Ideal.torch Ideal.x0 Ideal.w0
           IdealFacts.torch_cross_entropy_defined IdealFacts.torch_autograd_shapes
           IdealFacts.torch_neg_lr_sub (proj1 (init_wf _)) eq_refl wf_batch_x0).
Defined.

Lemma evaluate_model_on_a_loader_witness :
  evaluate_model (PyDataLoader [Ideal.x1; Ideal.x0]) Ideal.w0 =
    (Ok tt,
     Build_world (set_test_loss MeanMetric.init (self Ideal.w0)) (grad_enabled Ideal.w0)
       (stdout Ideal.w0 ++
        [TestLossLine
           (MeanMetric.compute
              (updates (map (batch_loss (values (self Ideal.w0))) [Ideal.x1; Ideal.x0])
                       (test_loss (self Ideal.w0))))])) /\
  (test_loss (self Ideal.w0) = MeanMetric.init ->
   MeanMetric.compute
     (updates (map (batch_loss (values (self Ideal.w0))) [Ideal.x1; Ideal.x0])
              (test_loss (self Ideal.w0)))
   = MeanMetric.mean (map (batch_loss (values (self Ideal.w0))) [Ideal.x1; Ideal.x0])).
Proof.
  apply (@evaluate_model_on_a_loader Ideal.torch [Ideal.x1; Ideal.x0] Ideal.w0
           IdealFacts.torch_cross_entropy_defined (proj1 (init_wf _))).
  exact (Forall_cons_2 _ _ _ wf_batch_x1 (Forall_cons_2 _ _ _ wf_batch_x0 (Forall_nil_2 _))).
Defined.

Lemma train_model_runs_every_epoch_witness :
  exists w',
    train_model (PyDataLoader [Ideal.x0; Ideal.x1]) (PyDataLoader [Ideal.x1]) 5 Ideal.w0
      = (Ok tt, w') /\
    wf_model (self w') /\ grad_enabled w' = true /\ metrics_clear (self w') /\
    test_loss (self w') = test_loss (self Ideal.w0) /\
    values (self w') = trained [Ideal.x0; Ideal.x1] 5 (values (self Ideal.w0)) /\
    length (stdout w') = length (stdout Ideal.w0) + 5 * (length [Ideal.x0; Ideal.x1] + 2).
Proof.
  apply (@train_model_runs_every_epoch Ideal.torch
           IdealFacts.torch_cross_entropy_defined IdealFacts.torch_autograd_shapes
           IdealFacts.torch_neg_lr_sub [Ideal.x0; Ideal.x1] [Ideal.x1] 5 Ideal.w0).
  - exact (Forall_cons_2 _ _ _ wf_batch_x0 (Forall_cons_2 _ _ _ wf_batch_x1 (Forall_nil_2 _))).
  - exact (Forall_cons_2 _ _ _ wf_batch_x1 (Forall_nil_2 _)).
  - exact (proj1 (init_wf _)).
  - reflexivity.
  - exact (proj1 (proj2 (init_wf _))).
Defined.

Lemma train_model_on_a_method_witness :
  train_model (PyMethod (val_dataloader Ideal.names)) (PyDataLoader [Ideal.x1]) 3 Ideal.w0
    = (Raise TypeError, Ideal.w0) /\
  exists w',
    train_model (PyDataLoader [Ideal.x0]) (PyMethod (val_dataloader Ideal.names)) 3 Ideal.w0
      = (Raise TypeError, w') /\
    values (self w') = pass_values (values (self Ideal.w0)) [Ideal.x0] /\
    train_loss (self w') =
      updates (pass_losses (values (self Ideal.w0)) [Ideal.x0]) (train_loss (self Ideal.w0)) /\
    stdout w' =
      stdout Ideal.w0 ++
      step_lines 0 3 (length [Ideal.x0]) 0 (pass_losses (values (self Ideal.w0)) [Ideal.x0]).
Proof.
  apply (@train_model_on_a_method Ideal.torch
           IdealFacts.torch_cross_entropy_defined IdealFacts.torch_autograd_shapes
           IdealFacts.torch_neg_lr_sub [Ideal.x0] (val_dataloader Ideal.names)
           (PyDataLoader [Ideal.x1]) 2 Ideal.w0).
  - exact (Forall_cons_2 _ _ _ wf_batch_x0 (Forall_nil_2 _)).
  - exact (proj1 (init_wf _)).
  - reflexivity.
Defined.
